(** * Parrator: the recording / transcription orchestration of [tray_app.py]

    A shallow embedding of [ParratorTrayApp] (src/parrator/tray_app.py).
    Methods are written as programs over a small instruction set (reads and
    writes of the object's fields, prints, calls into the collaborating
    modules, thread spawns); an interpreter runs them against an explicit
    world.  The same programs are run to completion (one call at a time) and
    one instruction at a time (two hotkey threads interleaved). *)

From Stdlib Require Import String List Bool Arith Lia.
Import ListNotations.
Local Open Scope string_scope.
Local Open Scope list_scope.

(** ** Data *)

(** Modelled from the spec: the captured samples returned by
    [AudioRecorder.stop_recording] (module [audio_recorder], not part of the
    sources at hand); the interface section calls them a byte stream, here a
    sequence of sample values.  The orchestration never looks inside. *)
Definition audio := list nat.

(** A Python exception: an [Exception] with its message, or a
    [KeyboardInterrupt], which [except Exception] does not catch (it stands
    for the raises that are not an [Exception]). *)
Inductive pyexn :=
| Exc (msg : string)
| KeyboardInterrupt.

Definition exn := pyexn.

(** Result of a call that may raise. *)
Inductive outcome (A : Type) : Type :=
| Returned (a : A)
| Raised (e : exn).
Arguments Returned {A} a.
Arguments Raised {A} e.

(** The fields of [ParratorTrayApp] that the orchestration reads and writes.
    [tray_icon] is [None] until [_setup_tray] has built the icon; afterwards
    it carries the icon's title. *)
Record App := mkApp {
  is_recording : bool;
  model_loaded : bool;
  tray_icon : option string
}.

(** What the outside can observe of one run. *)
Inductive Event :=
| EPrint (s : string)            (* print(...) *)
| ETitle (s : string)            (* self.tray_icon.title = ... *)
| EStart                         (* audio_recorder.start_recording() *)
| EStop                          (* audio_recorder.stop_recording() *)
| ESave (a : audio)              (* audio_recorder.save_temp_audio(a) *)
| ETranscribe (p : string)       (* transcriber.transcribe_file(p) *)
| ERemove (p : string)           (* os.remove(p) *)
| ECopy (t : string)             (* import pyperclip; pyperclip.copy(t) *)
| EAutoPasteCfg                  (* config.get('auto_paste', True) *)
| EImportPyautogui               (* import pyautogui *)
| ESleep                         (* time.sleep(0.1) *)
| EPaste                         (* pyautogui.hotkey('ctrl', 'v') *)
| ELoadModel                     (* transcriber.load_model() *)
| ESpawn (a : audio)             (* Thread(target=process).start() *)
| ESpawnLoader.                  (* Thread(target=load_model).start() *)

(** The world: the object, the daemon threads that were started and have not
    run yet (each [process] closure is known by the audio it captured), the
    number of collaborator calls made so far, and the observable history. *)
Record World := mkWorld {
  self : App;
  threads : list audio;
  loader : bool;
  clock : nat;
  trace : list Event
}.

(** ** Collaborators

    Calls that leave [tray_app.py].  Each may return or raise. *)
Inductive Ext : Type -> Type :=
| StartRecording : Ext bool
| StopRecording : Ext (option audio)
| SaveTempAudio (a : audio) : Ext (option string)
| TranscribeFile (p : string) : Ext (bool * option string)
| OsRemove (p : string) : Ext unit
| PyperclipCopy (t : string) : Ext unit     (* the import and the copy *)
| ConfigAutoPaste : Ext bool
| PyautoguiHotkey : Ext unit
| LoadModel : Ext bool
| ImportPyautogui : Ext unit.

(** The behaviour of the collaborators: what the n-th call made by the
    application answers.  Any deterministic environment is such a table. *)
Record Oracle := mkOracle {
  ext_start_recording : nat -> outcome bool;
  ext_stop_recording : nat -> outcome (option audio);
  ext_save_temp_audio : nat -> audio -> outcome (option string);
  ext_transcribe_file : nat -> string -> outcome (bool * option string);
  ext_os_remove : nat -> string -> outcome unit;
  ext_pyperclip_copy : nat -> string -> outcome unit;
  ext_config_auto_paste : nat -> outcome bool;
  ext_pyautogui_hotkey : nat -> outcome unit;
  ext_load_model : nat -> outcome bool;
  ext_import_pyautogui : nat -> outcome unit
}.

Definition respond (o : Oracle) {X} (c : Ext X) (n : nat) : outcome X :=
  match c in Ext T return outcome T with
  | StartRecording => ext_start_recording o n
  | StopRecording => ext_stop_recording o n
  | SaveTempAudio a => ext_save_temp_audio o n a
  | TranscribeFile p => ext_transcribe_file o n p
  | OsRemove p => ext_os_remove o n p
  | PyperclipCopy t => ext_pyperclip_copy o n t
  | ConfigAutoPaste => ext_config_auto_paste o n
  | PyautoguiHotkey => ext_pyautogui_hotkey o n
  | LoadModel => ext_load_model o n
  | ImportPyautogui => ext_import_pyautogui o n
  end.

Definition event_of_call {X} (c : Ext X) : Event :=
  match c with
  | StartRecording => EStart
  | StopRecording => EStop
  | SaveTempAudio a => ESave a
  | TranscribeFile p => ETranscribe p
  | OsRemove p => ERemove p
  | PyperclipCopy t => ECopy t
  | ConfigAutoPaste => EAutoPasteCfg
  | PyautoguiHotkey => EPaste
  | LoadModel => ELoadModel
  | ImportPyautogui => EImportPyautogui
  end.

(** ** Programs *)

(** One instruction: a field access, an output, a thread start or a call. *)
Inductive Op : Type -> Type :=
| GetIsRecording : Op bool
| SetIsRecording (b : bool) : Op unit
| GetModelLoaded : Op bool
| SetModelLoaded (b : bool) : Op unit
| HasTrayIcon : Op bool
| SetTitle (s : string) : Op unit
| Print (s : string) : Op unit
| Sleep : Op unit
| Spawn (a : audio) : Op unit
| SpawnLoader : Op unit
| Call {X : Type} (c : Ext X) : Op (outcome X).

(** A method body: it returns, raises, or performs an instruction and goes
    on with the answer. *)
Inductive prog (A : Type) : Type :=
| Ret (a : A)
| Throw (e : exn)
| Vis (X : Type) (op : Op X) (k : X -> prog A).
Arguments Ret {A} a.
Arguments Throw {A} e.
Arguments Vis {A X} op k.

Fixpoint bind {A B : Type} (p : prog A) (f : A -> prog B) : prog B :=
  match p with
  | Ret a => f a
  | Throw e => Throw e
  | Vis op k => Vis op (fun x => bind (k x) f)
  end.

(** [try: p except Exception as e: h e]: the handler is given the message;
    a raise that is not an [Exception] passes. *)
Fixpoint try_except {A : Type} (p : prog A) (h : string -> prog A) : prog A :=
  match p with
  | Ret a => Ret a
  | Throw (Exc msg) => h msg
  | Throw KeyboardInterrupt => Throw KeyboardInterrupt
  | Vis op k => Vis op (fun x => try_except (k x) h)
  end.

(** [try: p except: h], the bare [except], which catches every raise. *)
Fixpoint try_except_all {A : Type} (p : prog A) (h : prog A) : prog A :=
  match p with
  | Ret a => Ret a
  | Throw _ => h
  | Vis op k => Vis op (fun x => try_except_all (k x) h)
  end.

Declare Scope prog_scope.
Delimit Scope prog_scope with prog.
Bind Scope prog_scope with prog.
Notation "x <- p ;; q" := (bind p (fun x => q))
  (at level 61, p at next level, right associativity) : prog_scope.
Notation "p ;; q" := (bind p (fun _ => q))
  (at level 61, right associativity) : prog_scope.
Local Open Scope prog_scope.

Definition perform {X : Type} (op : Op X) : prog X := Vis op Ret.

(** A collaborator call; an exception raised by the callee is raised here. *)
Definition call {X : Type} (c : Ext X) : prog X :=
  Vis (Call c) (fun r => match r with
                         | Returned v => Ret v
                         | Raised e => Throw e
                         end).

Definition print (s : string) : prog unit := perform (Print s).
Definition pass : prog unit := Ret tt.

(** Python truthiness of an [Optional[str]]: [None] and the empty string are
    false. *)
Definition truthy (s : option string) : bool :=
  match s with
  | Some EmptyString => false
  | Some _ => true
  | None => false
  end.

Definition the_str (s : option string) : string :=
  match s with Some t => t | None => "None" end.

(** ** The methods of [ParratorTrayApp] *)

(** [_update_tray_icon] (lines 207-217). *)
Definition _update_tray_icon : prog unit :=
  icon <- perform HasTrayIcon ;;
  if icon then
    recording <- perform GetIsRecording ;;
    if recording then perform (SetTitle "Parrator - Recording...")
    else
      loaded <- perform GetModelLoaded ;;
      if loaded then perform (SetTitle "Parrator - Ready")
      else perform (SetTitle "Parrator - Loading...")
  else pass.

(** [load_model], the closure run by the thread of [_load_model_async]
    (lines 62-68). *)
Definition load_model : prog unit :=
  ok <- call LoadModel ;;
  if ok then
    perform (SetModelLoaded true) ;;
    _update_tray_icon ;;
    print "Model loaded successfully"
  else print "Failed to load model".

(** [_load_model_async] (lines 60-71). *)
Definition _load_model_async : prog unit := perform SpawnLoader.

(** [_auto_paste] (lines 197-205). *)
Definition _auto_paste : prog unit :=
  try_except
    (call ImportPyautogui ;;
     perform Sleep ;;
     call PyautoguiHotkey ;;
     print "Auto-pasted")
    (fun e => print ("Auto-paste failed: " ++ e)).

(** [_handle_transcription_result] (lines 180-195). *)
Definition _handle_transcription_result (text : string) : prog unit :=
  print ("Transcribed: " ++ text) ;;
  try_except
    (call (PyperclipCopy text) ;;
     print "Copied to clipboard" ;;
     auto_paste <- call ConfigAutoPaste ;;
     if auto_paste then _auto_paste else pass)
    (fun e => print ("Clipboard error: " ++ e)).

(** [process], the closure run by the thread of [_process_audio_async]
    (lines 152-175).  The early [return] after a failed save is the first
    branch. *)
Definition process (audio_data : audio) : prog unit :=
  try_except
    (temp_path <- call (SaveTempAudio audio_data) ;;
     if negb (truthy temp_path) then print "Failed to save audio"
     else
       r <- call (TranscribeFile (the_str temp_path)) ;;
       let (success, text) := r in
       try_except_all (call (OsRemove (the_str temp_path))) pass ;;
       if success && truthy text
       then _handle_transcription_result (the_str text)
       else print "Transcription failed")
    (fun e => print ("Processing error: " ++ e)).

(** [_process_audio_async] (lines 150-178). *)
Definition _process_audio_async (audio_data : audio) : prog unit :=
  perform (Spawn audio_data).

(** [_start_recording] (lines 125-134). *)
Definition _start_recording : prog unit :=
  print "Recording started..." ;;
  perform (SetIsRecording true) ;;
  _update_tray_icon ;;
  started <- call StartRecording ;;
  if negb started then
    print "Failed to start recording" ;;
    perform (SetIsRecording false) ;;
    _update_tray_icon
  else pass.

(** [_stop_recording] (lines 136-148). *)
Definition _stop_recording : prog unit :=
  print "Recording stopped, processing..." ;;
  perform (SetIsRecording false) ;;
  _update_tray_icon ;;
  audio_data <- call StopRecording ;;
  match audio_data with
  | Some a => _process_audio_async a
  | None => print "No audio data captured"
  end.

(** [_toggle_recording] (lines 114-123). *)
Definition _toggle_recording : prog unit :=
  loaded <- perform GetModelLoaded ;;
  if negb loaded then print "Model still loading, please wait..."
  else
    recording <- perform GetIsRecording ;;
    if negb recording then _start_recording else _stop_recording.

(** ** Running programs *)

Definition set_self (a : App) (w : World) : World :=
  mkWorld a (threads w) (loader w) (clock w) (trace w).

Definition log (e : Event) (w : World) : World :=
  mkWorld (self w) (threads w) (loader w) (clock w) (trace w ++ [e]).

Definition tick (w : World) : World :=
  mkWorld (self w) (threads w) (loader w) (S (clock w)) (trace w).

Definition has_icon (a : App) : bool :=
  match tray_icon a with Some _ => true | None => false end.

(** One instruction against the world. *)
Definition exec_op (o : Oracle) {X : Type} (op : Op X) (w : World) : X * World :=
  match op in Op T return T * World with
  | GetIsRecording => (is_recording (self w), w)
  | SetIsRecording b =>
      (tt, set_self (mkApp b (model_loaded (self w)) (tray_icon (self w))) w)
  | GetModelLoaded => (model_loaded (self w), w)
  | SetModelLoaded b =>
      (tt, set_self (mkApp (is_recording (self w)) b (tray_icon (self w))) w)
  | HasTrayIcon => (has_icon (self w), w)
  | SetTitle s =>
      (tt, log (ETitle s)
             (set_self (mkApp (is_recording (self w)) (model_loaded (self w))
                          (Some s)) w))
  | Print s => (tt, log (EPrint s) w)
  | Sleep => (tt, log ESleep w)
  | Spawn a =>
      (tt, log (ESpawn a)
             (mkWorld (self w) (threads w ++ [a]) (loader w) (clock w) (trace w)))
  | SpawnLoader =>
      (tt, log ESpawnLoader
             (mkWorld (self w) (threads w) true (clock w) (trace w)))
  | Call c => (respond o c (clock w), log (event_of_call c) (tick w))
  end.

(** A whole call, run to its end on the calling thread. *)
Fixpoint run (o : Oracle) {A : Type} (p : prog A) (w : World) : outcome A * World :=
  match p with
  | Ret a => (Returned a, w)
  | Throw e => (Raised e, w)
  | Vis op k => let (x, w') := exec_op o op w in run o (k x) w'
  end.

(** One instruction of a call; a finished call stays as it is. *)
Definition step1 (o : Oracle) {A : Type} (p : prog A) (w : World) : prog A * World :=
  match p with
  | Vis op k => let (x, w') := exec_op o op w in (k x, w')
  | _ => (p, w)
  end.

Fixpoint steps (o : Oracle) {A : Type} (n : nat) (p : prog A) (w : World)
  : prog A * World :=
  match n with
  | O => (p, w)
  | S n' => let (p', w') := step1 o p w in steps o n' p' w'
  end.

Definition finished {A : Type} (p : prog A) : bool :=
  match p with Vis _ _ => false | _ => true end.

(** ** The application as a transition system *)

(** The phases the specification speaks of, read off the code's state: the
    flag [is_recording] marks a recording; a [process] thread that was
    started and has not finished marks a session that is being processed. *)
Inductive Phase := Idle | Recording | Processing.

Definition phase (w : World) : Phase :=
  if is_recording (self w) then Recording
  else match threads w with
       | [] => Idle
       | _ :: _ => Processing
       end.

(** Sessions that are not idle: the recording in progress, if any, and every
    captured audio whose [process] thread is still running. *)
Definition live_sessions (w : World) : nat :=
  (if is_recording (self w) then 1 else 0) + length (threads w).

Inductive Readiness := Loading | Ready | Failed.

Definition readiness (w : World) : Readiness :=
  if model_loaded (self w) then Ready
  else if loader w then Loading else Failed.

Fixpoint remove_nth {A : Type} (i : nat) (l : list A) : list A :=
  match l, i with
  | [], _ => []
  | _ :: l', O => l'
  | x :: l', S i' => x :: remove_nth i' l'
  end.

(** What can happen next: the hotkey (or the menu item) calls
    [_toggle_recording]; the i-th running [process] thread runs; the
    [load_model] thread runs. *)
Inductive Action :=
| Toggle
| Finish (i : nat)
| LoadDone.

Definition toggle (o : Oracle) (w : World) : World :=
  snd (run o _toggle_recording w).

Definition finish (o : Oracle) (i : nat) (w : World) : World :=
  match nth_error (threads w) i with
  | Some a =>
      snd (run o (process a)
             (mkWorld (self w) (remove_nth i (threads w)) (loader w)
                (clock w) (trace w)))
  | None => w
  end.

Definition load_done (o : Oracle) (w : World) : World :=
  if loader w then
    snd (run o load_model
           (mkWorld (self w) (threads w) false (clock w) (trace w)))
  else w.

Definition act (o : Oracle) (a : Action) (w : World) : World :=
  match a with
  | Toggle => toggle o w
  | Finish i => finish o i w
  | LoadDone => load_done o w
  end.

Fixpoint acts (o : Oracle) (l : list Action) (w : World) : World :=
  match l with
  | [] => w
  | a :: l' => acts o l' (act o a w)
  end.

(** The phase before each action and after the last one. *)
Fixpoint phases (o : Oracle) (l : list Action) (w : World) : list Phase :=
  match l with
  | [] => [phase w]
  | a :: l' => phase w :: phases o l' (act o a w)
  end.

(** The world [start] has reached when the tray loop begins: the object as
    [__init__] leaves it, the loader thread started by [_load_model_async],
    the icon built by [_setup_tray] with its first title. *)
Definition booted : World :=
  mkWorld (mkApp false false (Some "Parrator - Loading...")) [] true 0 [].

(** An environment in which every collaborator succeeds. *)
Definition all_well : Oracle :=
  mkOracle
    (fun _ => Returned true)
    (fun _ => Returned (Some [1; 2; 3]))
    (fun _ _ => Returned (Some "/tmp/rec.wav"))
    (fun _ _ => Returned (true, Some "hello world"))
    (fun _ _ => Returned tt)
    (fun _ _ => Returned tt)
    (fun _ => Returned true)
    (fun _ => Returned tt)
    (fun _ => Returned true)
    (fun _ => Returned tt).

(** The title events of one [_update_tray_icon]: none before the icon
    exists. *)
Definition published (a : App) (title : string) : list Event :=
  if has_icon a then [ETitle title] else [].

(** ** Derived notions, environments and worlds used in the statements *)

(** An environment whose microphone cannot be opened. *)
Definition no_microphone : Oracle :=
  mkOracle
    (fun _ => Returned false)
    (ext_stop_recording all_well)
    (ext_save_temp_audio all_well)
    (ext_transcribe_file all_well)
    (ext_os_remove all_well)
    (ext_pyperclip_copy all_well)
    (ext_config_auto_paste all_well)
    (ext_pyautogui_hotkey all_well)
    (ext_load_model all_well)
    (ext_import_pyautogui all_well).

(** The application at rest with its model loaded. *)
Definition ready : World := load_done all_well booted.

(** The application with one recording stopped and its [process] thread
    started but not yet run. *)
Definition processing : World :=
  acts all_well [LoadDone; Toggle; Toggle] booted.

(** An environment whose transcriber raises. *)
Definition transcriber_crashes : Oracle :=
  mkOracle
    (ext_start_recording all_well)
    (ext_stop_recording all_well)
    (ext_save_temp_audio all_well)
    (fun _ _ => Raised (Exc "model crashed"))
    (ext_os_remove all_well)
    (ext_pyperclip_copy all_well)
    (ext_config_auto_paste all_well)
    (ext_pyautogui_hotkey all_well)
    (ext_load_model all_well)
    (ext_import_pyautogui all_well).

(** An environment whose clipboard is unavailable. *)
Definition clipboard_broken : Oracle :=
  mkOracle
    (ext_start_recording all_well)
    (ext_stop_recording all_well)
    (ext_save_temp_audio all_well)
    (ext_transcribe_file all_well)
    (ext_os_remove all_well)
    (fun _ _ => Raised (Exc "no clipboard mechanism"))
    (ext_config_auto_paste all_well)
    (ext_pyautogui_hotkey all_well)
    (ext_load_model all_well)
    (ext_import_pyautogui all_well).

(** The application while recording. *)
Definition recording : World := acts all_well [LoadDone; Toggle] booted.

(** An environment whose recorder hands back a capture with no samples in
    it. *)
Definition silent_capture : Oracle :=
  mkOracle
    (ext_start_recording all_well)
    (fun _ => Returned (Some []))
    (ext_save_temp_audio all_well)
    (ext_transcribe_file all_well)
    (ext_os_remove all_well)
    (ext_pyperclip_copy all_well)
    (ext_config_auto_paste all_well)
    (ext_pyautogui_hotkey all_well)
    (ext_load_model all_well)
    (ext_import_pyautogui all_well).

(** An environment whose recorder hands back nothing. *)
Definition no_capture : Oracle :=
  mkOracle
    (ext_start_recording all_well)
    (fun _ => Returned None)
    (ext_save_temp_audio all_well)
    (ext_transcribe_file all_well)
    (ext_os_remove all_well)
    (ext_pyperclip_copy all_well)
    (ext_config_auto_paste all_well)
    (ext_pyautogui_hotkey all_well)
    (ext_load_model all_well)
    (ext_import_pyautogui all_well).

(** Instructions that leave the object's fields and the set of threads
    alone. *)
Definition passive {X : Type} (op : Op X) : bool :=
  match op with
  | SetIsRecording _ | SetModelLoaded _ | SetTitle _ | Spawn _ | SpawnLoader =>
      false
  | _ => true
  end.

(** Programs made of passive instructions only. *)
Inductive quiet {A : Type} : prog A -> Prop :=
| quiet_ret (a : A) : quiet (Ret a)
| quiet_throw (e : exn) : quiet (Throw e)
| quiet_vis (X : Type) (op : Op X) (k : X -> prog A) :
    passive op = true -> (forall x, quiet (k x)) -> quiet (Vis op k).

(** An environment whose collaborators raise nothing but [Exception]s. *)
Definition only_exceptions (o : Oracle) : Prop :=
  forall (X : Type) (c : Ext X) (n : nat),
    respond o c n <> Raised KeyboardInterrupt.

(** The answers an instruction can get in such an environment. *)
Definition possible {X : Type} (op : Op X) : X -> Prop :=
  match op in Op T return T -> Prop with
  | Call c => fun r => r <> Raised KeyboardInterrupt
  | _ => fun _ => True
  end.

(** Programs that let nothing but an [Exception] out, as long as the
    collaborators raise nothing else. *)
Inductive contained {A : Type} : prog A -> Prop :=
| contained_ret (a : A) : contained (Ret a)
| contained_throw (msg : string) : contained (Throw (Exc msg))
| contained_vis (X : Type) (op : Op X) (k : X -> prog A) :
    (forall x, possible op x -> contained (k x)) -> contained (Vis op k).

(** The cycle of the specification, one step at a time; an action that
    changes nothing may leave the phase where it is. *)
Definition cycle_step (p q : Phase) : bool :=
  match p, q with
  | Idle, Recording | Recording, Processing | Processing, Idle => true
  | Idle, Idle | Recording, Recording | Processing, Processing => true
  | _, _ => false
  end.

Fixpoint valid_path (step : Phase -> Phase -> bool) (l : list Phase) : bool :=
  match l with
  | p :: ((q :: _) as l') => step p q && valid_path step l'
  | _ => true
  end.

(** What the code's toggle does to the phase once the model is loaded: it
    always leaves Recording (for Processing, or straight for Idle); from
    Idle and from Processing alike it enters Recording or stays. *)
Definition toggle_step (p q : Phase) : bool :=
  match p, q with
  | Idle, Idle | Idle, Recording => true
  | Recording, Processing | Recording, Idle => true
  | Processing, Processing | Processing, Recording => true
  | _, _ => false
  end.

(** What a finishing [process] thread does to the phase. *)
Definition finish_step (p q : Phase) : bool :=
  match p, q with
  | Idle, Idle | Recording, Recording => true
  | Processing, Processing | Processing, Idle => true
  | _, _ => false
  end.

Definition same_phase (p q : Phase) : bool :=
  match p, q with
  | Idle, Idle | Recording, Recording | Processing, Processing => true
  | _, _ => false
  end.

Definition action_step (a : Action) : Phase -> Phase -> bool :=
  match a with
  | Toggle => toggle_step
  | Finish _ => finish_step
  | LoadDone => same_phase
  end.

(** A phase sequence that takes, for each action in turn, a step that action
    allows. *)
Fixpoint follows (l : list Action) (ps : list Phase) : bool :=
  match l, ps with
  | [], [_] => true
  | a :: l', p :: ((q :: _) as ps') => action_step a p q && follows l' ps'
  | _, _ => false
  end.

(** The statuses the specification lists. *)
Inductive Status :=
| StIdleReady | StIdleLoading | StIdleNotReady | StRecording | StProcessing.

(** The status the specification asks for in a given world. *)
Definition expected_status (w : World) : Status :=
  match phase w with
  | Recording => StRecording
  | Processing => StProcessing
  | Idle =>
      match readiness w with
      | Ready => StIdleReady
      | Loading => StIdleLoading
      | Failed => StIdleNotReady
      end
  end.

(** The status a reader of the tray icon's title sees. *)
Definition status_of_title (t : string) : option Status :=
  if (t =? "Parrator - Recording...")%string then Some StRecording
  else if (t =? "Parrator - Ready")%string then Some StIdleReady
  else if (t =? "Parrator - Loading...")%string then Some StIdleLoading
  else None.

Definition published_status (w : World) : option Status :=
  match tray_icon (self w) with
  | Some t => status_of_title t
  | None => None
  end.

(** The title [_update_tray_icon] computes from the two flags. *)
Definition title_of (a : App) : string :=
  if is_recording a then "Parrator - Recording..."
  else if model_loaded a then "Parrator - Ready"
  else "Parrator - Loading...".

Definition flag_status (a : App) : Status :=
  if is_recording a then StRecording
  else if model_loaded a then StIdleReady
  else StIdleLoading.

Definition in_sync (w : World) : Prop :=
  tray_icon (self w) = Some (title_of (self w)).

(** An environment whose model cannot be loaded. *)
Definition load_fails : Oracle :=
  mkOracle
    (ext_start_recording all_well)
    (ext_stop_recording all_well)
    (ext_save_temp_audio all_well)
    (ext_transcribe_file all_well)
    (ext_os_remove all_well)
    (ext_pyperclip_copy all_well)
    (ext_config_auto_paste all_well)
    (ext_pyautogui_hotkey all_well)
    (fun _ => Returned false)
    (ext_import_pyautogui all_well).

(** Two threads, each inside a call; a schedule says whose instruction runs
    next.  The code takes no lock, so every schedule is possible. *)
Inductive Tid := T1 | T2.

Fixpoint interleave (o : Oracle) (s : list Tid) (p1 p2 : prog unit) (w : World)
  : prog unit * prog unit * World :=
  match s with
  | [] => (p1, p2, w)
  | T1 :: s' => let (p1', w') := step1 o p1 w in interleave o s' p1' p2 w'
  | T2 :: s' => let (p2', w') := step1 o p2 w in interleave o s' p1 p2' w'
  end.

Definition both_finished (r : prog unit * prog unit * World) : bool :=
  finished (fst (fst r)) && finished (snd (fst r)).

(** The first call runs to its end, then the second. *)
Definition one_after_the_other : list Tid := repeat T1 10 ++ repeat T2 14.

(** Both calls read the flags before either writes; then each runs on. *)
Definition both_read_first : list Tid :=
  [T1; T1; T2; T2] ++ repeat T1 8 ++ repeat T2 8.

(** What [_stop_recording] does after the recorder has answered. *)
Definition after_stop (r : outcome (option audio)) : list Event :=
  match r with
  | Returned (Some a) => [ESpawn a]
  | Returned None => [EPrint "No audio data captured"]
  | Raised _ => []
  end.

(** What [_start_recording] does after the recorder has answered. *)
Definition after_start (a : App) (r : outcome bool) : list Event :=
  match r with
  | Returned false =>
      EPrint "Failed to start recording" :: published a "Parrator - Ready"
  | _ => []
  end.

(** ** Two racing calls: what is still to come *)

Definition is_request (e : Event) : bool :=
  match e with EStart | EStop => true | _ => false end.

Definition is_stop (e : Event) : bool :=
  match e with EStop => true | _ => false end.

(** Requests made to the recorder (start or stop), and stops among them. *)
Definition requests (l : list Event) : nat := length (filter is_request l).
Definition stops (l : list Event) : nat := length (filter is_stop l).

(** Instructions that neither read or write [model_loaded] nor ask the
    recorder for anything. *)
Definition plain {X : Type} (op : Op X) : bool :=
  match op with
  | GetModelLoaded | SetModelLoaded _ => false
  | Call c => match c with
              | StartRecording | StopRecording => false
              | _ => true
              end
  | _ => true
  end.

(** [will_request n p]: as long as the model stays loaded, the rest [p] of a
    call asks the recorder exactly [n] more times on every path. *)
Inductive will_request {A : Type} : nat -> prog A -> Prop :=
| wr_ret (a : A) : will_request 0 (Ret a)
| wr_throw (e : exn) : will_request 0 (Throw e)
| wr_loaded (k : bool -> prog A) (n : nat) :
    will_request n (k true) -> will_request n (Vis GetModelLoaded k)
| wr_start (k : outcome bool -> prog A) (n : nat) :
    (forall r, will_request n (k r)) ->
    will_request (S n) (Vis (Call StartRecording) k)
| wr_stop (k : outcome (option audio) -> prog A) (n : nat) :
    (forall r, will_request n (k r)) ->
    will_request (S n) (Vis (Call StopRecording) k)
| wr_other (X : Type) (op : Op X) (k : X -> prog A) (n : nat) :
    plain op = true -> (forall x, will_request n (k x)) ->
    will_request n (Vis op k).

(** [must_stop p]: the rest [p] of a call is on its way to
    [stop_recording]. *)
Inductive must_stop {A : Type} : prog A -> Prop :=
| ms_stop (k : outcome (option audio) -> prog A) :
    must_stop (Vis (Call StopRecording) k)
| ms_loaded (k : bool -> prog A) :
    must_stop (k true) -> must_stop (Vis GetModelLoaded k)
| ms_other (X : Type) (op : Op X) (k : X -> prog A) :
    plain op = true -> (forall x, must_stop (k x)) -> must_stop (Vis op k).

(** [awaits p]: the call has not read [is_recording] yet, and will stop the
    recorder if it reads True. *)
Inductive awaits {A : Type} : prog A -> Prop :=
| aw_loaded (k : bool -> prog A) :
    awaits (k true) -> awaits (Vis GetModelLoaded k)
| aw_flag (k : bool -> prog A) :
    must_stop (k true) -> awaits (Vis GetIsRecording k).

(** What holds of two racing calls at every moment: [r] requests in all once
    both are through, and a stop either made (more than [s0] in the history)
    or still to come. *)
Definition racing (r s0 : nat) (c : prog unit * prog unit * World) : Prop :=
  let '(p1, p2, w) := c in
  model_loaded (self w) = true
  /\ s0 <= stops (trace w)
  /\ (exists n1 n2, will_request n1 p1 /\ will_request n2 p2
                    /\ requests (trace w) + n1 + n2 = r)
  /\ (s0 < stops (trace w)
      \/ must_stop p1 \/ must_stop p2
      \/ (is_recording (self w) = true /\ awaits p1 /\ awaits p2)).

(** ** Further environments and notions used in the statements *)

(** What [_handle_transcription_result] does after the clipboard write went
    through, given the answers of [config.get], of [import pyautogui] and of
    the paste keystroke. *)
Definition paste_events (cfg : outcome bool) (imp key : outcome unit)
  : list Event :=
  match cfg with
  | Returned true =>
      EImportPyautogui ::
      match imp with
      | Returned _ =>
          ESleep :: EPaste ::
          match key with
          | Returned _ => [EPrint "Auto-pasted"]
          | Raised (Exc msg) => [EPrint ("Auto-paste failed: " ++ msg)]
          | Raised KeyboardInterrupt => []
          end
      | Raised (Exc msg) => [EPrint ("Auto-paste failed: " ++ msg)]
      | Raised KeyboardInterrupt => []
      end
  | Returned false => []
  | Raised (Exc msg) => [EPrint ("Clipboard error: " ++ msg)]
  | Raised KeyboardInterrupt => []
  end.

(** How [_handle_transcription_result] ends after the clipboard write went
    through: it returns, unless one of the calls that follow raised
    something that is not an [Exception]. *)
Definition paste_result (cfg : outcome bool) (imp key : outcome unit)
  : outcome unit :=
  match cfg with
  | Returned true =>
      match imp with
      | Returned _ =>
          match key with
          | Raised KeyboardInterrupt => Raised KeyboardInterrupt
          | _ => Returned tt
          end
      | Raised KeyboardInterrupt => Raised KeyboardInterrupt
      | Raised (Exc _) => Returned tt
      end
  | Raised KeyboardInterrupt => Raised KeyboardInterrupt
  | _ => Returned tt
  end.

(** The loader thread and a toggle overlapping: the loader has set
    [model_loaded] and read the flags for the title when the toggle runs
    from its first instruction to its last; then the loader writes the
    title it had chosen. *)
Definition loader_overtaken : list Tid :=
  repeat T1 5 ++ repeat T2 8 ++ repeat T1 2.

(** The same environment with another [os.remove]. *)
Definition with_os_remove (o : Oracle) (f : nat -> string -> outcome unit)
  : Oracle :=
  mkOracle
    (ext_start_recording o)
    (ext_stop_recording o)
    (ext_save_temp_audio o)
    (ext_transcribe_file o)
    f
    (ext_pyperclip_copy o)
    (ext_config_auto_paste o)
    (ext_pyautogui_hotkey o)
    (ext_load_model o)
    (ext_import_pyautogui o).

(** An environment without the pyautogui package. *)
Definition no_pyautogui : Oracle :=
  mkOracle
    (ext_start_recording all_well)
    (ext_stop_recording all_well)
    (ext_save_temp_audio all_well)
    (ext_transcribe_file all_well)
    (ext_os_remove all_well)
    (ext_pyperclip_copy all_well)
    (ext_config_auto_paste all_well)
    (ext_pyautogui_hotkey all_well)
    (ext_load_model all_well)
    (fun _ => Raised (Exc "No module named 'pyautogui'")).

(** An environment in which the paste keystroke cannot be sent. *)
Definition paste_broken : Oracle :=
  mkOracle
    (ext_start_recording all_well)
    (ext_stop_recording all_well)
    (ext_save_temp_audio all_well)
    (ext_transcribe_file all_well)
    (ext_os_remove all_well)
    (ext_pyperclip_copy all_well)
    (ext_config_auto_paste all_well)
    (fun _ => Raised (Exc "no display"))
    (ext_load_model all_well)
    (ext_import_pyautogui all_well).

(** An environment whose recorder cannot write the transient file. *)
Definition disk_full : Oracle :=
  mkOracle
    (ext_start_recording all_well)
    (ext_stop_recording all_well)
    (fun _ _ => Returned None)
    (ext_transcribe_file all_well)
    (ext_os_remove all_well)
    (ext_pyperclip_copy all_well)
    (ext_config_auto_paste all_well)
    (ext_pyautogui_hotkey all_well)
    (ext_load_model all_well)
    (ext_import_pyautogui all_well).

(** An environment whose transcriber hears nothing. *)
Definition nothing_heard : Oracle :=
  mkOracle
    (ext_start_recording all_well)
    (ext_stop_recording all_well)
    (ext_save_temp_audio all_well)
    (fun _ _ => Returned (true, Some ""))
    (ext_os_remove all_well)
    (ext_pyperclip_copy all_well)
    (ext_config_auto_paste all_well)
    (ext_pyautogui_hotkey all_well)
    (ext_load_model all_well)
    (ext_import_pyautogui all_well).

(** An environment whose recorder raises when asked to start. *)
Definition recorder_crashes : Oracle :=
  mkOracle
    (fun _ => Raised (Exc "no input device"))
    (ext_stop_recording all_well)
    (ext_save_temp_audio all_well)
    (ext_transcribe_file all_well)
    (ext_os_remove all_well)
    (ext_pyperclip_copy all_well)
    (ext_config_auto_paste all_well)
    (ext_pyautogui_hotkey all_well)
    (ext_load_model all_well)
    (ext_import_pyautogui all_well).

(** Counting events of one kind in a history. *)
Definition count (f : Event -> bool) (l : list Event) : nat :=
  length (filter f l).

Definition is_start (e : Event) : bool :=
  match e with EStart => true | _ => false end.

Definition is_save (e : Event) : bool :=
  match e with ESave _ => true | _ => false end.

Definition is_copy (e : Event) : bool :=
  match e with ECopy _ => true | _ => false end.

Definition is_spawn (e : Event) : bool :=
  match e with ESpawn _ => true | _ => false end.

Definition flag (b : bool) : nat := if b then 1 else 0.

(** What a call of [_toggle_recording] may be seen doing: printing, setting
    the title, asking the recorder to start or stop, starting a thread. *)
Definition toggle_event (e : Event) : bool :=
  match e with
  | EPrint _ | ETitle _ | EStart | EStop | ESpawn _ => true
  | _ => false
  end.

(** What a [process] thread may be seen doing: printing and the save,
    transcribe, remove, clipboard, setting, import and paste calls. *)
Definition task_event (e : Event) : bool :=
  match e with
  | EPrint _ | ESave _ | ETranscribe _ | ERemove _ | ECopy _
  | EAutoPasteCfg | EImportPyautogui | ESleep | EPaste => true
  | _ => false
  end.

(** The recorder was never asked to stop more often than to start, and a
    recording in progress has a start of its own. *)
Definition balanced (w : World) : Prop :=
  count is_stop (trace w) + flag (is_recording (self w))
  <= count is_start (trace w).

(** Every thread started has either saved its audio or is still to run, and
    nothing was copied that was not saved first. *)
Definition accounted (w : World) : Prop :=
  length (threads w) + count is_save (trace w) = count is_spawn (trace w)
  /\ count is_copy (trace w) <= count is_save (trace w).

(** ** The rest of the class: set-up, menu callbacks, shutdown

    The methods around the orchestration ([start], [_setup_tray],
    [_setup_hotkeys], [_show_settings], [_toggle_startup],
    [_quit_application], [_get_icon_path], [cleanup]) use more of the
    process than the orchestration does, and [start] tells a
    [KeyboardInterrupt] from other exceptions.  They are written over a
    second instruction set that contains the first. *)

Inductive answer (A : Type) : Type :=
| Gave (a : A)
| Threw (e : pyexn).
Arguments Gave {A} a.
Arguments Threw {A} e.

(** The image handed to the icon: the file, or the blue square made when
    the file cannot be read. *)
Inductive image := FromFile (path : string) | BlueSquare.

(** The methods the menu and the hotkey are bound to. *)
Inductive Callback := OnToggle | OnSettings | OnStartup | OnQuit.

(** Calls that leave [tray_app.py] from these methods. *)
Inductive SExt : Type -> Type :=
| ImageOpen (path : string) : SExt unit
| ImageNew : SExt unit
| ConfigGet (key : string) (default : option string) : SExt string
| ConfigPath : SExt string
| HotkeyStart : SExt bool
| HotkeyStop : SExt unit
| RecorderCleanup : SExt unit
| TrayRun : SExt unit
| TrayStop : SExt unit
| StartupIsEnabled : SExt bool
| StartupEnable : SExt bool
| StartupDisable : SExt bool
| OsStartfile (path : string) : SExt unit
| SubprocessRun (cmd : list string) : SExt unit.

(** What the outside can observe of these methods: what the orchestration
    shows, the objects built, and the calls made. *)
Inductive SEvent :=
| Orch (e : Event)
| IconBuilt (img : image) (title : string) (menu : list (string * Callback))
| HotkeyBuilt (combo : string) (cb : Callback)
| Asked (X : Type) (c : SExt X).
Arguments Asked {X} c.

(** The process and the collaborators as these methods find them: the
    interpreter's constants, the directory of the module, the path join of
    the platform, and what the n-th call answers. *)
Record Surroundings := mkSurroundings {
  sys_platform : string;
  sys_frozen : bool;
  sys_meipass : string;
  module_dir : string;
  path_join : string -> list string -> string;
  reply : forall X : Type, SExt X -> nat -> answer X
}.

(** The object with the fields these methods add to the orchestration's:
    [hotkey_manager] (None until [_setup_hotkeys], then the manager with its
    combination), whether [audio_recorder] counts as true, the number of
    calls made, and the history. *)
Record Desk := mkDesk {
  core : World;
  hotkey_manager : option string;
  audio_recorder : bool;
  ticks : nat;
  history : list SEvent
}.

Inductive SOp : Type -> Type :=
| Orchestrate {X : Type} (op : Op X) : SOp X
| HasHotkeyManager : SOp bool
| SetHotkeyManager (combo : string) (cb : Callback) : SOp unit
| HasAudioRecorder : SOp bool
| BuildIcon (img : image) (title : string) (menu : list (string * Callback))
  : SOp unit
| Ask {X : Type} (c : SExt X) : SOp (answer X).

Inductive sprog (A : Type) : Type :=
| SRet (a : A)
| SThrow (e : pyexn)
| SVis (X : Type) (op : SOp X) (k : X -> sprog A).
Arguments SRet {A} a.
Arguments SThrow {A} e.
Arguments SVis {A X} op k.

Fixpoint sbind {A B : Type} (p : sprog A) (f : A -> sprog B) : sprog B :=
  match p with
  | SRet a => f a
  | SThrow e => SThrow e
  | SVis op k => SVis op (fun x => sbind (k x) f)
  end.

(** [try: p except Exception as e: h e]; a [KeyboardInterrupt] passes. *)
Fixpoint except_exception {A : Type} (p : sprog A) (h : string -> sprog A)
  : sprog A :=
  match p with
  | SRet a => SRet a
  | SThrow (Exc msg) => h msg
  | SThrow KeyboardInterrupt => SThrow KeyboardInterrupt
  | SVis op k => SVis op (fun x => except_exception (k x) h)
  end.

(** [try: p except KeyboardInterrupt: h]; any other exception passes. *)
Fixpoint except_keyboard_interrupt {A : Type} (p : sprog A) (h : sprog A)
  : sprog A :=
  match p with
  | SRet a => SRet a
  | SThrow KeyboardInterrupt => h
  | SThrow (Exc msg) => SThrow (Exc msg)
  | SVis op k => SVis op (fun x => except_keyboard_interrupt (k x) h)
  end.

(** [try: p finally: q]: [q] runs either way; an exception of [p] is raised
    again after [q], unless [q] raises one of its own. *)
Fixpoint try_finally {A : Type} (p : sprog A) (q : sprog unit) : sprog A :=
  match p with
  | SRet a => sbind q (fun _ => SRet a)
  | SThrow e => sbind q (fun _ => SThrow e)
  | SVis op k => SVis op (fun x => try_finally (k x) q)
  end.

(** A method of the orchestration, called from here. *)
Fixpoint lift {A : Type} (p : prog A) : sprog A :=
  match p with
  | Ret a => SRet a
  | Throw e => SThrow e
  | Vis op k => SVis (Orchestrate op) (fun x => lift (k x))
  end.

Declare Scope sprog_scope.
Delimit Scope sprog_scope with sprog.
Bind Scope sprog_scope with sprog.
Notation "x <- p ;; q" := (sbind p (fun x => q))
  (at level 61, p at next level, right associativity) : sprog_scope.
Notation "p ;; q" := (sbind p (fun _ => q))
  (at level 61, right associativity) : sprog_scope.

Definition ask {X : Type} (c : SExt X) : sprog X :=
  SVis (Ask c) (fun r => match r with
                         | Gave v => SRet v
                         | Threw e => SThrow e
                         end).

Definition say (s : string) : sprog unit := lift (print s).
Definition spass : sprog unit := SRet tt.

(** The labels and bindings of the menu built in [_setup_tray]. *)
Definition menu_items : list (string * Callback) :=
  [("Toggle Recording", OnToggle); ("Settings", OnSettings);
   ("Start with System", OnStartup); ("Quit", OnQuit)].

(** [_get_icon_path] (lines 255-262). *)
Definition _get_icon_path (e : Surroundings) : string :=
  let base_path := if sys_frozen e then sys_meipass e else module_dir e in
  path_join e base_path ["resources"; "icon.png"].

(** [_setup_tray] (lines 73-103). *)
Definition _setup_tray (e : Surroundings) : sprog unit :=
  (let icon_path := _get_icon_path e in
   image <- except_exception
              (ask (ImageOpen icon_path) ;; SRet (FromFile icon_path))
              (fun msg =>
                 say ("Could not load icon: " ++ msg) ;;
                 ask ImageNew ;; SRet BlueSquare) ;;
   SVis (BuildIcon image "Parrator - Loading..." menu_items) SRet)%sprog.

(** [_setup_hotkeys] (lines 105-112). *)
Definition _setup_hotkeys : sprog unit :=
  (hotkey_combo <- ask (ConfigGet "hotkey" (Some "ctrl+shift+;")) ;;
   SVis (SetHotkeyManager hotkey_combo OnToggle) SRet ;;
   registered <- ask HotkeyStart ;;
   if negb registered
   then say ("Could not register hotkey: " ++ hotkey_combo)
   else spass)%sprog.

(** [cleanup] (lines 264-269). *)
Definition cleanup : sprog unit :=
  (manager <- SVis HasHotkeyManager SRet ;;
   (if manager then ask HotkeyStop else spass) ;;
   recorder <- SVis HasAudioRecorder SRet ;;
   if recorder then ask RecorderCleanup else spass)%sprog.

(** [self.tray_icon.<method>()]: an [AttributeError] when the icon was
    never built. *)
Definition on_icon (c : SExt unit) (method : string) : sprog unit :=
  (icon <- lift (perform HasTrayIcon) ;;
   if icon then ask c
   else SThrow (Exc ("'NoneType' object has no attribute '" ++ method ++ "'")))%sprog.

(** [_quit_application] (lines 249-253). *)
Definition _quit_application : sprog unit :=
  (say "Quitting..." ;;
   cleanup ;;
   on_icon TrayStop "stop")%sprog.

(** [_toggle_startup] (lines 236-247). *)
Definition _toggle_startup : sprog unit :=
  (enabled <- ask StartupIsEnabled ;;
   if enabled then
     ok <- ask StartupDisable ;;
     if ok then say "Disabled startup with system"
     else say "Failed to disable startup"
   else
     ok <- ask StartupEnable ;;
     if ok then say "Enabled startup with system"
     else say "Failed to enable startup")%sprog.

(** [_show_settings] (lines 219-234). *)
Definition _show_settings (e : Surroundings) : sprog unit :=
  except_exception
    (config_path <- ask ConfigPath ;;
     (if (sys_platform e =? "win32")%string then ask (OsStartfile config_path)
      else if (sys_platform e =? "darwin")%string
           then ask (SubprocessRun ["open"; config_path])
           else ask (SubprocessRun ["xdg-open"; config_path])) ;;
     say ("Opened settings: " ++ config_path))%sprog
    (fun msg => say ("Could not open settings: " ++ msg)).

(** [start] (lines 37-58). *)
Definition start (e : Surroundings) : sprog unit :=
  (say "Starting Parrator..." ;;
   lift _load_model_async ;;
   _setup_tray e ;;
   _setup_hotkeys ;;
   hotkey <- ask (ConfigGet "hotkey" None) ;;
   say ("Ready! Press " ++ hotkey ++ " to record") ;;
   try_finally
     (except_keyboard_interrupt
        (on_icon TrayRun "run")
        (say "Application interrupted"))
     cleanup)%sprog.

(** What a callback runs. *)
Definition callback (e : Surroundings) (cb : Callback) : sprog unit :=
  match cb with
  | OnToggle => lift _toggle_recording
  | OnSettings => _show_settings e
  | OnStartup => _toggle_startup
  | OnQuit => _quit_application
  end.

(** The event an instruction of the orchestration adds to the history, if
    any. *)
Definition event_of_op {X : Type} (op : Op X) : list Event :=
  match op with
  | SetTitle s => [ETitle s]
  | Print s => [EPrint s]
  | Sleep => [ESleep]
  | Spawn a => [ESpawn a]
  | SpawnLoader => [ESpawnLoader]
  | Call c => [event_of_call c]
  | _ => []
  end.

Definition set_core (w : World) (d : Desk) : Desk :=
  mkDesk w (hotkey_manager d) (audio_recorder d) (ticks d) (history d).

Definition note (ev : list SEvent) (d : Desk) : Desk :=
  mkDesk (core d) (hotkey_manager d) (audio_recorder d) (ticks d)
         (history d ++ ev).

(** One instruction against the desk. *)
Definition exec_sop (o : Oracle) (e : Surroundings) {X : Type} (op : SOp X)
           (d : Desk) : X * Desk :=
  match op in SOp T return T * Desk with
  | Orchestrate op' =>
      let (x, w') := exec_op o op' (core d) in
      (x, note (map Orch (event_of_op op')) (set_core w' d))
  | HasHotkeyManager =>
      (match hotkey_manager d with Some _ => true | None => false end, d)
  | SetHotkeyManager combo cb =>
      (tt, note [HotkeyBuilt combo cb]
             (mkDesk (core d) (Some combo) (audio_recorder d) (ticks d)
                (history d)))
  | HasAudioRecorder => (audio_recorder d, d)
  | BuildIcon img title menu =>
      (tt, note [IconBuilt img title menu]
             (set_core
                (set_self (mkApp (is_recording (self (core d)))
                             (model_loaded (self (core d))) (Some title))
                   (core d)) d))
  | Ask c =>
      (reply e _ c (ticks d),
       note [Asked c]
         (mkDesk (core d) (hotkey_manager d) (audio_recorder d) (S (ticks d))
            (history d)))
  end.

Fixpoint srun (o : Oracle) (e : Surroundings) {A : Type} (p : sprog A) (d : Desk)
  : answer A * Desk :=
  match p with
  | SRet a => (Gave a, d)
  | SThrow ex => (Threw ex, d)
  | SVis op k => let (x, d') := exec_sop o e op d in srun o e (k x) d'
  end.

(** The object as [__init__] leaves it (lines 26-35). *)
Definition constructed : Desk :=
  mkDesk (mkWorld (mkApp false false None) [] false 0 []) None true 0 [].

(** Surroundings in which every call succeeds, on Linux, run from
    source. *)
Definition calm : Surroundings :=
  mkSurroundings "linux" false "" "/opt/parrator"
    (fun base parts =>
       fold_left (fun acc p : string => (acc ++ "/" ++ p)%string) parts base)
    (fun X c _ =>
       match c in SExt T return answer T with
       | ImageOpen _ => Gave tt
       | ImageNew => Gave tt
       | ConfigGet _ _ => Gave "ctrl+shift+;"
       | ConfigPath => Gave "/home/user/.parrator/config.json"
       | HotkeyStart => Gave true
       | HotkeyStop => Gave tt
       | RecorderCleanup => Gave tt
       | TrayRun => Gave tt
       | TrayStop => Gave tt
       | StartupIsEnabled => Gave false
       | StartupEnable => Gave true
       | StartupDisable => Gave true
       | OsStartfile _ => Gave tt
       | SubprocessRun _ => Gave tt
       end).

(** The same surroundings with some answers replaced. *)
Definition but (e : Surroundings)
           (f : forall X : Type, SExt X -> option (answer X)) : Surroundings :=
  mkSurroundings (sys_platform e) (sys_frozen e) (sys_meipass e) (module_dir e)
    (path_join e)
    (fun X c n => match f X c with
                  | Some r => r
                  | None => reply e X c n
                  end).

(** No file opener works. *)
Definition no_opener : Surroundings :=
  but calm (fun X c =>
              match c in SExt T return option (answer T) with
              | SubprocessRun _ => Some (Threw (Exc "xdg-open not found"))
              | OsStartfile _ => Some (Threw (Exc "not supported"))
              | _ => None
              end).

(** The hotkey cannot be registered. *)
Definition hotkey_taken : Surroundings :=
  but calm (fun X c =>
              match c in SExt T return option (answer T) with
              | HotkeyStart => Some (Gave false)
              | _ => None
              end).

(** The hotkey library raises. *)
Definition hotkey_raises : Surroundings :=
  but calm (fun X c =>
              match c in SExt T return option (answer T) with
              | HotkeyStart => Some (Threw (Exc "keyboard hook failed"))
              | HotkeyStop => Some (Threw (Exc "keyboard hook failed"))
              | _ => None
              end).

(** The icon file is missing. *)
Definition icon_missing : Surroundings :=
  but calm (fun X c =>
              match c in SExt T return option (answer T) with
              | ImageOpen _ => Some (Threw (Exc "No such file"))
              | _ => None
              end).

(** The tray loop ends with Ctrl-C. *)
Definition interrupted : Surroundings :=
  but calm (fun X c =>
              match c in SExt T return option (answer T) with
              | TrayRun => Some (Threw KeyboardInterrupt)
              | _ => None
              end).

(** The object once [start] has set everything up. *)
Definition set_up_desk : Desk :=
  mkDesk booted (Some "ctrl+shift+;") true 0 [].

(** The part of [start] before its [try] (lines 39-50). *)
Definition set_up (e : Surroundings) : sprog unit :=
  (say "Starting Parrator..." ;;
   lift _load_model_async ;;
   _setup_tray e ;;
   _setup_hotkeys ;;
   hotkey <- ask (ConfigGet "hotkey" None) ;;
   say ("Ready! Press " ++ hotkey ++ " to record"))%sprog.

(** The [try] statement of [start] (lines 53-58). *)
Definition tray_loop : sprog unit :=
  try_finally
    (except_keyboard_interrupt
       (on_icon TrayRun "run")
       (say "Application interrupted"))
    cleanup.

Definition asked_hotkey_stop (ev : SEvent) : bool :=
  match ev with
  | Asked c => match c with HotkeyStop => true | _ => false end
  | _ => false
  end.

Definition asked_recorder_cleanup (ev : SEvent) : bool :=
  match ev with
  | Asked c => match c with RecorderCleanup => true | _ => false end
  | _ => false
  end.

Definition asked_startup_change (ev : SEvent) : bool :=
  match ev with
  | Asked c => match c with
               | StartupEnable | StartupDisable => true
               | _ => false
               end
  | _ => false
  end.

Definition tally (f : SEvent -> bool) (l : list SEvent) : nat :=
  length (filter f l).

(** * Properties *)

(** ** The interpreter *)

Lemma run_bind (o : Oracle) {A B : Type} (p : prog A) (f : A -> prog B) :
  forall w,
    run o (bind p f) w =
    match run o p w with
    | (Returned a, w') => run o (f a) w'
    | (Raised e, w') => (Raised e, w')
    end.
Proof.
  induction p as [a | e | X op k IH]; intro w; simpl.
  - reflexivity.
  - reflexivity.
  - destruct (exec_op o op w) as [x w']. apply IH.
Qed.

Lemma run_try_except (o : Oracle) {A : Type} (p : prog A)
      (h : string -> prog A) :
  forall w,
    run o (try_except p h) w =
    match run o p w with
    | (Returned a, w') => (Returned a, w')
    | (Raised (Exc msg), w') => run o (h msg) w'
    | (Raised KeyboardInterrupt, w') => (Raised KeyboardInterrupt, w')
    end.
Proof.
  induction p as [a | e | X op k IH]; intro w; simpl.
  - reflexivity.
  - destruct e; reflexivity.
  - destruct (exec_op o op w) as [x w']. apply IH.
Qed.

Lemma run_try_except_all (o : Oracle) {A : Type} (p h : prog A) :
  forall w,
    run o (try_except_all p h) w =
    match run o p w with
    | (Returned a, w') => (Returned a, w')
    | (Raised _, w') => run o h w'
    end.
Proof.
  induction p as [a | e | X op k IH]; intro w; simpl.
  - reflexivity.
  - reflexivity.
  - destruct (exec_op o op w) as [x w']. apply IH.
Qed.

(** Running a call one instruction at a time and then to its end is running
    it to its end: every world [steps] shows is one the call goes through. *)
Lemma run_step1 (o : Oracle) {A : Type} (p : prog A) (w : World) :
  run o (fst (step1 o p w)) (snd (step1 o p w)) = run o p w.
Proof.
  destruct p as [a | e | X op k]; simpl; try reflexivity.
  destruct (exec_op o op w) as [x w']. reflexivity.
Qed.

Lemma run_steps (o : Oracle) {A : Type} (n : nat) :
  forall (p : prog A) (w : World),
    run o (fst (steps o n p w)) (snd (steps o n p w)) = run o p w.
Proof.
  induction n as [| n IH]; intros p w; simpl.
  - reflexivity.
  - rewrite <- (run_step1 o p w).
    destruct (step1 o p w) as [p' w']. apply IH.
Qed.

(** A handler that raises no [Exception] makes the whole [try] unable to
    raise one; what is not an [Exception] passes. *)
Lemma try_except_catches (o : Oracle) {A : Type} (p : prog A)
      (h : string -> prog A) :
  (forall msg w m, fst (run o (h msg) w) <> Raised (Exc m)) ->
  forall w m, fst (run o (try_except p h) w) <> Raised (Exc m).
Proof.
  intros Hh w m. rewrite run_try_except.
  destruct (run o p w) as [[a | [msg |]] w']; simpl.
  - discriminate.
  - apply Hh.
  - discriminate.
Qed.

(** The history only grows. *)
Lemma exec_op_trace (o : Oracle) {X : Type} (op : Op X) (w : World) :
  exists rest, trace (snd (exec_op o op w)) = trace w ++ rest.
Proof.
  destruct op; cbn;
    solve [ exists []; symmetry; apply app_nil_r | eexists; reflexivity ].
Qed.

Lemma run_trace (o : Oracle) {A : Type} (p : prog A) :
  forall w, exists rest, trace (snd (run o p w)) = trace w ++ rest.
Proof.
  induction p as [a | e | X op k IH]; intro w; simpl.
  - exists []. symmetry. apply app_nil_r.
  - exists []. symmetry. apply app_nil_r.
  - destruct (exec_op_trace o op w) as [r1 H1].
    destruct (exec_op o op w) as [x w']. simpl in H1.
    destruct (IH x w') as [r2 H2].
    exists (r1 ++ r2). rewrite H2, H1. symmetry. apply app_assoc.
Qed.

(** No [Exception] leaves a [process] thread. *)
Lemma process_raises_no_exception (o : Oracle) (a : audio) (w : World)
      (m : string) :
  fst (run o (process a) w) <> Raised (Exc m).
Proof.
  unfold process. apply try_except_catches. intros msg w' m'. discriminate.
Qed.

(** *** Raises that are not an [Exception] *)

Lemma contained_bind {A B : Type} (p : prog A) (f : A -> prog B) :
  contained p -> (forall a, contained (f a)) -> contained (bind p f).
Proof.
  intros Hp Hf. induction Hp as [a | msg | X op k Hk IH]; simpl.
  - apply Hf.
  - constructor.
  - constructor. exact IH.
Qed.

Lemma contained_try_except {A : Type} (p : prog A) (h : string -> prog A) :
  contained p -> (forall msg, contained (h msg)) -> contained (try_except p h).
Proof.
  intros Hp Hh. induction Hp as [a | msg | X op k Hk IH]; simpl.
  - constructor.
  - apply Hh.
  - constructor. exact IH.
Qed.

(** The bare [except] lets nothing out that its handler does not raise,
    whatever its body does. *)
Lemma contained_try_except_all {A : Type} (p h : prog A) :
  contained h -> contained (try_except_all p h).
Proof.
  intro Hh. induction p as [a | e | X op k IH]; simpl.
  - constructor.
  - exact Hh.
  - constructor. intros x _. apply IH.
Qed.

Lemma contained_call {X : Type} (c : Ext X) : contained (call c).
Proof.
  unfold call. constructor. intros [v | [msg |]] Hx; simpl in Hx.
  - constructor.
  - constructor.
  - congruence.
Qed.

Lemma contained_perform {X : Type} (op : Op X) : contained (perform op).
Proof. unfold perform. constructor. intros x _. constructor. Qed.

Lemma exec_possible (o : Oracle) {X : Type} (op : Op X) (w : World) :
  only_exceptions o -> possible op (fst (exec_op o op w)).
Proof.
  intro Ho. destruct op; simpl; try exact I. apply Ho.
Qed.

Lemma run_contained (o : Oracle) {A : Type} (p : prog A) :
  only_exceptions o ->
  contained p ->
  forall w, fst (run o p w) <> Raised KeyboardInterrupt.
Proof.
  intros Ho Hp. induction Hp as [a | msg | X op k Hk IH]; intro w; simpl.
  - discriminate.
  - discriminate.
  - pose proof (exec_possible o op w Ho) as Hx.
    destruct (exec_op o op w) as [x w']. simpl in Hx. apply IH, Hx.
Qed.

Ltac contained_step :=
  first
    [ apply contained_bind; [| intro]
    | apply contained_try_except; [| intro]
    | apply contained_try_except_all
    | apply contained_call
    | apply contained_perform
    | apply contained_ret
    | match goal with
      | |- contained (if ?b then _ else _) => destruct b
      | |- contained (let (_, _) := ?r in _) => destruct r
      end ].

Lemma contained_process (a : audio) : contained (process a).
Proof.
  unfold process, _handle_transcription_result, _auto_paste, print, pass.
  repeat contained_step.
Qed.

(** A [process] thread returns, as long as the collaborators raise nothing
    but [Exception]s. *)
Lemma process_returns (o : Oracle) (a : audio) (w : World) :
  only_exceptions o -> fst (run o (process a) w) = Returned tt.
Proof.
  intro Ho.
  pose proof (run_contained o (process a) Ho (contained_process a) w) as Hk.
  pose proof (process_raises_no_exception o a w) as He.
  destruct (fst (run o (process a) w)) as [[] | [m |]].
  - reflexivity.
  - elim (He m). reflexivity.
  - elim Hk. reflexivity.
Qed.

Lemma all_well_only_exceptions : only_exceptions all_well.
Proof. intros X c n. destruct c; discriminate. Qed.

Ltac open_world w :=
  destruct w as [[rec loaded icon] th ld c tr]; cbn in *.

(** ** Toggling before the model is loaded *)

(** C3. A call of [_toggle_recording] from Idle while the model is not ready
    (still loading, or failed to load) is a no-op: it returns without
    raising, the object, the running threads and the number of collaborator
    calls are as before (so [start_recording] was not requested), the phase
    is still Idle, and the only thing that happened is the report
    "Model still loading, please wait...". *)
Theorem toggle_before_model_ready (o : Oracle) (w : World) :
  phase w = Idle ->
  readiness w <> Ready ->
  run o _toggle_recording w =
    (Returned tt, log (EPrint "Model still loading, please wait...") w)
  /\ phase (toggle o w) = Idle
  /\ self (toggle o w) = self w
  /\ threads (toggle o w) = threads w
  /\ clock (toggle o w) = clock w
  /\ trace (toggle o w) =
       trace w ++ [EPrint "Model still loading, please wait..."].
Proof.
  intros Hph Hrd.
  assert (Hl : model_loaded (self w) = false).
  { unfold readiness in Hrd. destruct (model_loaded (self w)); congruence. }
  assert (Hrun : run o _toggle_recording w =
                 (Returned tt, log (EPrint "Model still loading, please wait...") w)).
  { open_world w. subst loaded. reflexivity. }
  unfold toggle. rewrite Hrun. cbn. repeat split; assumption.
Qed.

Lemma toggle_before_model_ready_witness :
  phase booted = Idle /\ readiness booted <> Ready /\
  trace (toggle all_well booted) =
    trace booted ++ [EPrint "Model still loading, please wait..."].
Proof.
  split; [reflexivity | split; [discriminate |]].
  apply (toggle_before_model_ready all_well booted); [reflexivity | discriminate].
Defined.

(** ** Starting a recording *)

(** A call of [_toggle_recording] from Idle with the model loaded, when
    [start_recording] answers False: the call returns without raising, the
    flag is back to False, the phase is Idle, no session exists (nothing is
    recording and no [process] thread was started), and the failure is
    reported by the print "Failed to start recording". *)
Lemma toggle_start_failure_rolls_back (o : Oracle) (w : World) :
  phase w = Idle ->
  model_loaded (self w) = true ->
  ext_start_recording o (clock w) = Returned false ->
  fst (run o _toggle_recording w) = Returned tt
  /\ phase (toggle o w) = Idle
  /\ is_recording (self (toggle o w)) = false
  /\ threads (toggle o w) = []
  /\ live_sessions (toggle o w) = 0
  /\ trace (toggle o w) =
       trace w ++ [EPrint "Recording started..."]
         ++ published (self w) "Parrator - Recording..."
         ++ [EStart; EPrint "Failed to start recording"]
         ++ published (self w) "Parrator - Ready".
Proof.
  intros Hph Hl Hs. unfold toggle, phase, live_sessions, published in *.
  open_world w. subst loaded.
  destruct rec; [discriminate |]. destruct th; [| discriminate].
  destruct icon as [t |]; cbn; rewrite Hs; cbn;
    rewrite <- ?app_assoc; repeat split.
Qed.

Lemma toggle_start_failure_rolls_back_witness :
  phase ready = Idle /\
  model_loaded (self ready) = true /\
  ext_start_recording no_microphone (clock ready) = Returned false /\
  phase (toggle no_microphone ready) = Idle /\
  live_sessions (toggle no_microphone ready) = 0.
Proof.
  do 3 (split; [reflexivity |]).
  pose proof (toggle_start_failure_rolls_back no_microphone ready
                eq_refl eq_refl eq_refl) as H.
  split; [apply H | apply H].
Defined.

(** C6. The roll-back of [_start_recording] covers only a
    [start_recording] that answers False.  When the recorder fails by
    raising (here: no input device), nothing catches the exception: it
    leaves [_toggle_recording], the flag set before the request stays set,
    the title stays "Parrator - Recording...", the phase is Recording with
    one live session although nothing is being recorded, and no failure is
    reported. *)
Theorem start_exception_is_not_rolled_back :
  let w := toggle recorder_crashes ready in
  phase ready = Idle
  /\ model_loaded (self ready) = true
  /\ ext_start_recording recorder_crashes (clock ready)
     = Raised (Exc "no input device")
  /\ fst (run recorder_crashes _toggle_recording ready)
     = Raised (Exc "no input device")
  /\ is_recording (self w) = true
  /\ phase w = Recording
  /\ live_sessions w = 1
  /\ tray_icon (self w) = Some "Parrator - Recording..."
  /\ trace w =
       trace ready ++
       [EPrint "Recording started..."; ETitle "Parrator - Recording...";
        EStart]
  /\ ~ In (EPrint "Failed to start recording") (trace w).
Proof.
  cbv zeta. repeat split.
  vm_compute. intro H.
  repeat (destruct H as [H | H]; [discriminate H |]). exact H.
Qed.

(** C9. In a call of [_toggle_recording] from Idle with the model loaded (and
    the tray icon built, as it is whenever the hotkey or the menu can call),
    the flag is set and the title "Parrator - Recording..." is published
    before [start_recording] is requested: after seven instructions the
    world shows the flag and the Recording title and no request yet; the
    eighth instruction is the request.  When the request answers False the
    same call then publishes "Parrator - Ready" again and clears the flag, so
    the Recording title was visible in between. *)
Theorem recording_published_before_start (o : Oracle) (w : World) :
  phase w = Idle ->
  model_loaded (self w) = true ->
  has_icon (self w) = true ->
  let mid := snd (steps o 7 _toggle_recording w) in
  let req := snd (steps o 8 _toggle_recording w) in
  is_recording (self mid) = true
  /\ tray_icon (self mid) = Some "Parrator - Recording..."
  /\ trace mid =
       trace w ++ [EPrint "Recording started..."; ETitle "Parrator - Recording..."]
  /\ clock mid = clock w
  /\ trace req = trace mid ++ [EStart]
  /\ run o (fst (steps o 7 _toggle_recording w)) mid = run o _toggle_recording w
  /\ (ext_start_recording o (clock w) = Returned false ->
      trace (toggle o w) =
        trace mid ++ [EStart; EPrint "Failed to start recording";
                      ETitle "Parrator - Ready"]
      /\ tray_icon (self (toggle o w)) = Some "Parrator - Ready"
      /\ is_recording (self (toggle o w)) = false).
Proof.
  intros Hph Hl Hi mid req.
  assert (Hrun : run o (fst (steps o 7 _toggle_recording w)) mid
                 = run o _toggle_recording w) by apply run_steps.
  split; [| split; [| split; [| split; [| split; [| split; [exact Hrun |]]]]]];
    clear Hrun; subst mid req; unfold toggle, phase, has_icon in *;
    open_world w; subst loaded;
    (destruct rec; [discriminate |]);
    (destruct icon as [t |]; [| discriminate]);
    cbn; rewrite <- ?app_assoc; try reflexivity.
  intro Hs. rewrite Hs. cbn. rewrite <- !app_assoc. repeat split.
Qed.

Lemma recording_published_before_start_witness :
  phase ready = Idle /\
  model_loaded (self ready) = true /\
  has_icon (self ready) = true /\
  tray_icon (self (snd (steps no_microphone 7 _toggle_recording ready)))
    = Some "Parrator - Recording...".
Proof.
  do 3 (split; [reflexivity |]).
  apply (recording_published_before_start no_microphone ready
           eq_refl eq_refl eq_refl).
Defined.

(** ** The background task *)

(** Up to the transcription call: the audio is saved, the file is handed to
    the transcriber. *)
Lemma process_when_transcription_raises (o : Oracle) (a : audio) (w : World)
      (p : string) (e : string) :
  ext_save_temp_audio o (clock w) a = Returned (Some p) ->
  truthy (Some p) = true ->
  ext_transcribe_file o (S (clock w)) p = Raised (Exc e) ->
  fst (run o (process a) w) = Returned tt
  /\ trace (snd (run o (process a) w)) =
       trace w ++ [ESave a; ETranscribe p; EPrint ("Processing error: " ++ e)].
Proof.
  intros Hsave Hp Htr. open_world w.
  destruct p as [| ch p']; [discriminate |].
  unfold process. cbn. rewrite Hsave. cbn. rewrite Htr. cbn.
  rewrite <- !app_assoc. split; reflexivity.
Qed.

(** When the transcription call returns, whatever it returns, the file is
    removed next, and a failing removal is passed over. *)
Lemma process_when_transcription_returns (o : Oracle) (a : audio) (w : World)
      (p : string) (success : bool) (text : option string) :
  ext_save_temp_audio o (clock w) a = Returned (Some p) ->
  truthy (Some p) = true ->
  ext_transcribe_file o (S (clock w)) p = Returned (success, text) ->
  (forall m, fst (run o (process a) w) <> Raised (Exc m))
  /\ exists rest,
       trace (snd (run o (process a) w)) =
         trace w ++ [ESave a; ETranscribe p; ERemove p] ++ rest.
Proof.
  intros Hsave Hp Htr. split; [intro m; apply process_raises_no_exception |].
  open_world w. destruct p as [| ch p']; [discriminate |].
  unfold process. cbn. rewrite Hsave. cbn. rewrite Htr. cbn.
  destruct (ext_os_remove o (S (S c)) (String ch p')) as [[] | e0]; cbn;
    match goal with
    | |- context [run o ?q ?v] =>
        destruct (run_trace o q v) as [rest Hrest]; exists rest;
        rewrite Hrest; cbn; rewrite <- !app_assoc; reflexivity
    end.
Qed.

(** C5. The removal of the transient file sits after the transcription call
    inside the same [try]: when [transcribe_file] raises, control goes to the
    outer handler and [os.remove] is never reached.  Here the audio is saved
    to /tmp/rec.wav, the transcriber raises, and the task ends with the file
    still there. *)
Theorem temp_file_left_when_transcription_raises :
  let w := finish transcriber_crashes 0 processing in
  threads processing = [[1; 2; 3]]
  /\ threads w = []
  /\ trace w =
       trace processing ++
       [ESave [1; 2; 3]; ETranscribe "/tmp/rec.wav";
        EPrint "Processing error: model crashed"]
  /\ ~ In (ERemove "/tmp/rec.wav") (trace w).
Proof.
  cbv zeta. repeat split.
  vm_compute. intro H.
  repeat (destruct H as [H | H]; [discriminate H |]). exact H.
Qed.

(** ** Delivery *)

(** C10. When the clipboard write raises an [Exception],
    [_handle_transcription_result] goes straight to its handler: the
    configuration is not read, [pyautogui] is not imported, the paste
    keystroke is not sent (nor the pause before it), the only trace of the
    failure is the print "Clipboard error: ...", and the method returns.  No
    [Exception] leaves the background task itself, in any environment, and
    the task returns whenever the collaborators raise nothing but
    [Exception]s. *)
Theorem clipboard_failure_skips_paste (o : Oracle) (w : World)
        (text : string) (e : string) :
  ext_pyperclip_copy o (clock w) text = Raised (Exc e) ->
  fst (run o (_handle_transcription_result text) w) = Returned tt
  /\ trace (snd (run o (_handle_transcription_result text) w)) =
       trace w ++ [EPrint ("Transcribed: " ++ text); ECopy text;
                   EPrint ("Clipboard error: " ++ e)]
  /\ clock (snd (run o (_handle_transcription_result text) w)) = S (clock w)
  /\ self (snd (run o (_handle_transcription_result text) w)) = self w
  /\ (forall a w0 m, fst (run o (process a) w0) <> Raised (Exc m))
  /\ (only_exceptions o ->
      forall a w0, fst (run o (process a) w0) = Returned tt).
Proof.
  intro Hc. open_world w. unfold _handle_transcription_result.
  cbn. rewrite Hc. cbn. rewrite <- !app_assoc.
  repeat split.
  - intros a w0 m. apply process_raises_no_exception.
  - intros Ho a w0. apply process_returns, Ho.
Qed.

Lemma clipboard_failure_skips_paste_witness :
  ext_pyperclip_copy clipboard_broken (clock ready) "hello world"
    = Raised (Exc "no clipboard mechanism")
  /\ trace (snd (run clipboard_broken
                   (_handle_transcription_result "hello world") ready)) =
       trace ready ++ [EPrint "Transcribed: hello world"; ECopy "hello world";
                       EPrint "Clipboard error: no clipboard mechanism"].
Proof.
  split; [reflexivity |].
  apply (clipboard_failure_skips_paste clipboard_broken ready
           "hello world" "no clipboard mechanism" eq_refl).
Defined.

(** Whatever the audio, the first thing a [process] thread does is ask for
    it to be saved. *)
Lemma process_saves_first (o : Oracle) (a : audio) (w : World) :
  exists rest, trace (snd (run o (process a) w)) = trace w ++ ESave a :: rest.
Proof.
  unfold process. cbn.
  match goal with
  | |- context [run o ?q ?v] =>
      destruct (run_trace o q v) as [rest Hrest]; exists rest;
      rewrite Hrest; cbn; rewrite <- app_assoc; reflexivity
  end.
Qed.

(** ** Stopping a recording *)

(** C4, as stated, fails for samples that are present but empty: the
    [process] thread is started, and it saves, transcribes and delivers. *)
Lemma empty_capture_is_processed :
  let stopped := toggle silent_capture recording in
  let done := finish silent_capture 0 stopped in
  phase recording = Recording
  /\ ext_stop_recording silent_capture (clock recording) = Returned (Some [])
  /\ phase stopped = Processing
  /\ threads stopped = [[]]
  /\ In (ESave []) (trace done)
  /\ In (ETranscribe "/tmp/rec.wav") (trace done)
  /\ In (ECopy "hello world") (trace done)
  /\ phase done = Idle.
Proof.
  cbv zeta. vm_compute. repeat split; tauto.
Qed.

(** C4, amended.  Stopping a recording with the model loaded:
    when [stop_recording] returns None, no [process] thread is started, the
    call makes no collaborator call besides the stop itself (no save, no
    transcription, no delivery), it prints "No audio data captured", and the
    phase is Idle when nothing else is being processed; the code has no
    outcome value.  When it returns samples, empty or not, a [process] thread
    is started for them, and that thread begins by saving them. *)
Theorem stop_without_audio_starts_no_task (o : Oracle) (w : World) :
  phase w = Recording ->
  model_loaded (self w) = true ->
  (ext_stop_recording o (clock w) = Returned None ->
   fst (run o _toggle_recording w) = Returned tt
   /\ threads (toggle o w) = threads w
   /\ is_recording (self (toggle o w)) = false
   /\ clock (toggle o w) = S (clock w)
   /\ trace (toggle o w) =
        trace w ++ [EPrint "Recording stopped, processing..."]
          ++ published (self w) "Parrator - Ready"
          ++ [EStop; EPrint "No audio data captured"]
   /\ (threads w = [] -> phase (toggle o w) = Idle))
  /\ (forall a,
       ext_stop_recording o (clock w) = Returned (Some a) ->
       threads (toggle o w) = threads w ++ [a]
       /\ phase (toggle o w) = Processing
       /\ forall o' w', exists rest,
            trace (snd (run o' (process a) w')) = trace w' ++ ESave a :: rest).
Proof.
  intros Hph Hl. unfold toggle, phase, published, has_icon in *.
  open_world w. subst loaded. destruct rec; [| destruct th; discriminate].
  split.
  - intro Hs. destruct icon as [t |]; cbn; rewrite Hs; cbn;
      rewrite <- ?app_assoc; repeat split; intros ->; reflexivity.
  - intros a Hs. split; [| split].
    + destruct icon as [t |]; cbn; rewrite Hs; reflexivity.
    + destruct icon as [t |]; cbn; rewrite Hs; cbn; destruct th; reflexivity.
    + intros o' w'. apply process_saves_first.
Qed.

Lemma stop_without_audio_starts_no_task_witness :
  phase recording = Recording /\
  model_loaded (self recording) = true /\
  ext_stop_recording no_capture (clock recording) = Returned None /\
  threads (toggle no_capture recording) = [] /\
  phase (toggle no_capture recording) = Idle.
Proof.
  do 3 (split; [reflexivity |]).
  destruct (stop_without_audio_starts_no_task no_capture recording
              eq_refl eq_refl) as [Hnone _].
  destruct (Hnone eq_refl) as (_ & Hth & _ & _ & _ & Hidle).
  split; [exact Hth | apply Hidle; reflexivity].
Defined.

(** ** Toggling while a task is still running *)

(** C1, as stated, fails: with a [process] thread still running, a toggle
    starts a new recording; afterwards a recording and a session being
    processed are live together. *)
Lemma toggle_while_processing_starts_recording :
  let w := toggle all_well processing in
  phase processing = Processing
  /\ live_sessions processing = 1
  /\ phase w = Recording
  /\ is_recording (self w) = true
  /\ threads w = [[1; 2; 3]]
  /\ trace w = trace processing ++
               [EPrint "Recording started..."; ETitle "Parrator - Recording...";
                EStart]
  /\ live_sessions w = 2.
Proof.
  cbv zeta. vm_compute. repeat split.
Qed.

(** C1, amended.  The code has no Processing phase of its own: only the flag
    [is_recording] gates a toggle.  While a [process] thread is running and
    the model is loaded, a toggle leaves the running threads as they are but
    is not ignored: it requests [start_recording] exactly as from Idle.  When
    the request answers True a recording is live next to the session still
    being processed (one more live session than before); when it answers
    False the flag is cleared again and the phase is still Processing. *)
Theorem toggle_while_processing (o : Oracle) (w : World) :
  phase w = Processing ->
  model_loaded (self w) = true ->
  threads (toggle o w) = threads w
  /\ (exists rest,
        trace (toggle o w) =
          trace w ++ [EPrint "Recording started..."]
            ++ published (self w) "Parrator - Recording..."
            ++ EStart :: rest)
  /\ (ext_start_recording o (clock w) = Returned true ->
      phase (toggle o w) = Recording
      /\ live_sessions (toggle o w) = S (live_sessions w)
      /\ 2 <= live_sessions (toggle o w))
  /\ (ext_start_recording o (clock w) = Returned false ->
      phase (toggle o w) = Processing
      /\ is_recording (self (toggle o w)) = false
      /\ live_sessions (toggle o w) = live_sessions w).
Proof.
  intros Hph Hl. unfold toggle, phase, live_sessions, published, has_icon in *.
  open_world w. subst loaded.
  destruct rec; [discriminate |]. destruct th as [| a th]; [discriminate |].
  split; [| split; [| split]].
  - destruct icon as [t |]; cbn;
      destruct (ext_start_recording o c) as [[] | e]; reflexivity.
  - destruct icon as [t |]; cbn;
      destruct (ext_start_recording o c) as [[] | e]; cbn;
      rewrite <- ?app_assoc; cbn; eexists; reflexivity.
  - intro Hs. destruct icon as [t |]; cbn; rewrite Hs; cbn;
      repeat split; lia.
  - intro Hs. destruct icon as [t |]; cbn; rewrite Hs; cbn; repeat split.
Qed.

Lemma toggle_while_processing_witness :
  phase processing = Processing /\
  model_loaded (self processing) = true /\
  threads (toggle all_well processing) = threads processing.
Proof.
  do 2 (split; [reflexivity |]).
  apply (toggle_while_processing all_well processing eq_refl eq_refl).
Defined.

(** ** What a call can touch *)

Lemma quiet_bind {A B : Type} (p : prog A) (f : A -> prog B) :
  quiet p -> (forall a, quiet (f a)) -> quiet (bind p f).
Proof.
  intros Hp Hf. induction Hp as [a | e | X op k Hop Hk IH]; simpl.
  - apply Hf.
  - constructor.
  - constructor; assumption.
Qed.

Lemma quiet_try_except {A : Type} (p : prog A) (h : string -> prog A) :
  quiet p -> (forall e, quiet (h e)) -> quiet (try_except p h).
Proof.
  intros Hp Hh. induction Hp as [a | e | X op k Hop Hk IH]; simpl.
  - constructor.
  - destruct e; [apply Hh | constructor].
  - constructor; assumption.
Qed.

Lemma quiet_try_except_all {A : Type} (p h : prog A) :
  quiet p -> quiet h -> quiet (try_except_all p h).
Proof.
  intros Hp Hh. induction Hp as [a | e | X op k Hop Hk IH]; simpl.
  - constructor.
  - exact Hh.
  - constructor; assumption.
Qed.

Lemma quiet_call {X : Type} (c : Ext X) : quiet (call c).
Proof.
  unfold call. constructor; [reflexivity |].
  intros [v | e]; constructor.
Qed.

Lemma quiet_print (s : string) : quiet (print s).
Proof. unfold print, perform. constructor; [reflexivity | intro; constructor]. Qed.

Lemma quiet_sleep : quiet (perform Sleep).
Proof. unfold perform. constructor; [reflexivity | intro; constructor]. Qed.

Lemma quiet_pass : quiet pass.
Proof. constructor. Qed.

Create HintDb quiet.
#[export] Hint Resolve quiet_call quiet_print quiet_sleep quiet_pass : quiet.
#[export] Hint Constructors quiet : quiet.

Ltac quiet_step :=
  first
    [ apply quiet_bind; [| intro]
    | apply quiet_try_except; [| intro]
    | apply quiet_try_except_all
    | match goal with
      | |- quiet (if ?b then _ else _) => destruct b
      | |- quiet (let (_, _) := ?r in _) => destruct r
      end
    | solve [auto with quiet] ].

Lemma quiet_auto_paste : quiet _auto_paste.
Proof. unfold _auto_paste. repeat quiet_step. Qed.

Lemma quiet_handle_transcription_result (text : string) :
  quiet (_handle_transcription_result text).
Proof.
  unfold _handle_transcription_result.
  repeat quiet_step.
Qed.

Lemma quiet_process (a : audio) : quiet (process a).
Proof.
  unfold process. repeat quiet_step.
Qed.

Lemma exec_passive (o : Oracle) {X : Type} (op : Op X) (w : World) :
  passive op = true ->
  self (snd (exec_op o op w)) = self w
  /\ threads (snd (exec_op o op w)) = threads w
  /\ loader (snd (exec_op o op w)) = loader w.
Proof.
  destruct op; cbn; intro H; try discriminate; repeat split.
Qed.

Lemma run_quiet (o : Oracle) {A : Type} (p : prog A) :
  quiet p ->
  forall w,
    self (snd (run o p w)) = self w
    /\ threads (snd (run o p w)) = threads w
    /\ loader (snd (run o p w)) = loader w.
Proof.
  induction 1 as [a | e | X op k Hop Hk IH]; intro w; simpl.
  - repeat split.
  - repeat split.
  - destruct (exec_passive o op w Hop) as (Hs & Ht & Hl).
    destruct (exec_op o op w) as [x w']. simpl in *.
    destruct (IH x w') as (Hs' & Ht' & Hl').
    rewrite Hs', Ht', Hl'. repeat split; assumption.
Qed.

(** A finishing [process] thread changes nothing of the object; it only
    leaves the set of running threads. *)
Lemma finish_self (o : Oracle) (i : nat) (w : World) :
  self (finish o i w) = self w.
Proof.
  unfold finish. destruct (nth_error (threads w) i) as [a |]; [| reflexivity].
  match goal with
  | |- self (snd (run o _ ?v)) = _ =>
      destruct (run_quiet o (process a) (quiet_process a) v) as (H & _ & _)
  end.
  exact H.
Qed.

Lemma finish_threads (o : Oracle) (i : nat) (w : World) :
  threads (finish o i w) = remove_nth i (threads w).
Proof.
  unfold finish. destruct (nth_error (threads w) i) as [a |] eqn:E.
  - match goal with
    | |- threads (snd (run o _ ?v)) = _ =>
        destruct (run_quiet o (process a) (quiet_process a) v) as (_ & H & _)
    end.
    exact H.
  - clear o. revert i E. induction (threads w) as [| x l IH]; intros i E.
    + destruct i; reflexivity.
    + destruct i as [| i]; [discriminate |]. simpl. f_equal. apply IH, E.
Qed.

(** ** Phase sequences *)

(** Case analysis on what the collaborators answer and on the variables the
    control flow depends on. *)
Ltac oracle_cases :=
  repeat (cbn;
          match goal with
          | |- context [match ?x with Returned _ => _ | Raised _ => _ end] =>
              match type of x with outcome _ => destruct x end
          | |- context [match ?x with Exc _ => _ | KeyboardInterrupt => _ end] =>
              is_var x; destruct x
          | |- context [match ?x with [] => _ | _ :: _ => _ end] =>
              match type of x with list _ => is_var x; destruct x end
          | |- context [match ?x ++ _ with [] => _ | _ :: _ => _ end] =>
              is_var x; destruct x
          | |- context [if ?b then _ else _] =>
              match type of b with bool => is_var b; destruct b end
          | |- context [negb ?b] => is_var b; destruct b
          | |- context [has_icon _] => progress unfold has_icon
          | |- context [match ?x with Some _ => _ | None => _ end] =>
              match type of x with option _ => is_var x; destruct x end
          end);
  cbn.

Lemma toggle_keeps_loaded (o : Oracle) (w : World) :
  model_loaded (self w) = true -> model_loaded (self (toggle o w)) = true.
Proof.
  intro Hl. unfold toggle. open_world w. subst loaded.
  oracle_cases; reflexivity.
Qed.

Lemma load_done_keeps_loaded (o : Oracle) (w : World) :
  model_loaded (self w) = true -> model_loaded (self (load_done o w)) = true.
Proof.
  intro Hl. unfold load_done. open_world w. subst loaded.
  oracle_cases; reflexivity.
Qed.

Lemma act_keeps_loaded (o : Oracle) (a : Action) (w : World) :
  model_loaded (self w) = true -> model_loaded (self (act o a w)) = true.
Proof.
  destruct a as [| i |]; simpl; intro Hl.
  - apply toggle_keeps_loaded, Hl.
  - rewrite finish_self. exact Hl.
  - apply load_done_keeps_loaded, Hl.
Qed.

Lemma toggle_phase_step (o : Oracle) (w : World) :
  model_loaded (self w) = true ->
  toggle_step (phase w) (phase (toggle o w)) = true.
Proof.
  intro Hl. unfold toggle, phase. open_world w. subst loaded.
  oracle_cases; reflexivity.
Qed.

Lemma finish_phase_step (o : Oracle) (i : nat) (w : World) :
  finish_step (phase w) (phase (finish o i w)) = true.
Proof.
  unfold phase. rewrite finish_self, finish_threads.
  destruct (is_recording (self w)); [reflexivity |].
  destruct (threads w) as [| a [| b l]]; destruct i as [| [| i]]; reflexivity.
Qed.

Lemma load_done_phase (o : Oracle) (w : World) :
  same_phase (phase w) (phase (load_done o w)) = true.
Proof.
  unfold load_done, phase. open_world w.
  oracle_cases; reflexivity.
Qed.

Lemma act_phase_step (o : Oracle) (a : Action) (w : World) :
  model_loaded (self w) = true ->
  action_step a (phase w) (phase (act o a w)) = true.
Proof.
  destruct a as [| i |]; simpl; intro Hl.
  - apply toggle_phase_step, Hl.
  - apply finish_phase_step.
  - apply load_done_phase.
Qed.

Lemma phases_follow (o : Oracle) (l : list Action) :
  forall w, model_loaded (self w) = true -> follows l (phases o l w) = true.
Proof.
  induction l as [| a l IH]; intros w Hl; simpl.
  - reflexivity.
  - pose proof (IH (act o a w) (act_keeps_loaded o a w Hl)) as Hrest.
    destruct (phases o l (act o a w)) as [| q ps] eqn:E.
    + destruct l; discriminate.
    + assert (Hq : q = phase (act o a w)).
      { destruct l; simpl in E; congruence. }
      subst q. rewrite act_phase_step by assumption. exact Hrest.
Qed.

(** C7, as stated, fails both ways: a stop that captured nothing goes from
    Recording straight to Idle, and a toggle during processing enters
    Recording from Processing. *)
Lemma toggles_leave_the_cycle :
  phases no_capture [Toggle; Toggle] ready = [Idle; Recording; Idle]
  /\ valid_path cycle_step (phases no_capture [Toggle; Toggle] ready) = false
  /\ phases all_well [Toggle; Toggle; Toggle] ready
     = [Idle; Recording; Processing; Recording]
  /\ valid_path cycle_step (phases all_well [Toggle; Toggle; Toggle] ready)
     = false.
Proof.
  vm_compute. repeat split.
Qed.

(** The phase after a toggle made while a recording is in progress, by the
    answer of [stop_recording]: Processing when samples came back or another
    thread is still running, Idle otherwise. *)
Lemma toggle_phase_when_recording (o : Oracle) (w : World) :
  model_loaded (self w) = true ->
  phase w = Recording ->
  phase (toggle o w) =
    match ext_stop_recording o (clock w), threads w with
    | Returned (Some _), _ => Processing
    | _, _ :: _ => Processing
    | _, [] => Idle
    end.
Proof.
  intros Hl Hph. unfold toggle, phase in *. open_world w. subst loaded.
  destruct rec; [| destruct th; discriminate].
  destruct icon; cbn;
    destruct (ext_stop_recording o c) as [[a |] | e]; cbn;
    destruct th; reflexivity.
Qed.

(** The phase after a toggle made while no recording is in progress, by the
    answer of [start_recording]: unchanged when it is False, Recording when
    it is True and also when the call raised. *)
Lemma toggle_phase_when_not_recording (o : Oracle) (w : World) :
  model_loaded (self w) = true ->
  phase w <> Recording ->
  phase (toggle o w) =
    match ext_start_recording o (clock w) with
    | Returned false => phase w
    | _ => Recording
    end.
Proof.
  intros Hl Hph. unfold toggle, phase in *. open_world w. subst loaded.
  destruct rec; [congruence |].
  destruct icon; cbn;
    destruct (ext_start_recording o c) as [[] | e]; cbn; reflexivity.
Qed.

(** C7, amended.  With the model loaded, every sequence of toggles, thread
    completions and loader completions takes only steps its actions allow:
    a toggle always leaves Recording, to Processing or straight to Idle, and
    enters Recording from Idle or from Processing, or stays; a finishing
    thread keeps the phase or takes Processing to Idle; the loader's
    completion keeps the phase; the phase is never taken from Idle to
    Processing.  A toggle during a recording reaches Processing when samples
    came back or another thread is still running, and Idle when none came
    back ([None], or [stop_recording] raised) and nothing else is running.
    A toggle from Idle or from Processing enters Recording when
    [start_recording] answers True, from Processing with no Idle in between,
    and also when [start_recording] raises; it leaves the phase as it is
    when [start_recording] answers False. *)
Theorem phase_paths_of_the_code (o : Oracle) (w : World) :
  model_loaded (self w) = true ->
  (forall l, follows l (phases o l w) = true)
  /\ (phase w = Recording -> phase (toggle o w) <> Recording)
  /\ (phase w = Recording ->
      forall a, ext_stop_recording o (clock w) = Returned (Some a) ->
                phase (toggle o w) = Processing)
  /\ (phase w = Recording -> threads w = [] ->
      ext_stop_recording o (clock w) = Returned None ->
      phase (toggle o w) = Idle)
  /\ (phase w = Processing ->
      ext_start_recording o (clock w) = Returned true ->
      phase (toggle o w) = Recording)
  /\ (phase w = Idle ->
      ext_start_recording o (clock w) = Returned true ->
      phase (toggle o w) = Recording)
  /\ (phase w <> Recording ->
      ext_start_recording o (clock w) = Returned false ->
      phase (toggle o w) = phase w)
  /\ (phase w <> Recording ->
      forall e, ext_start_recording o (clock w) = Raised e ->
                phase (toggle o w) = Recording)
  /\ (phase w = Recording -> threads w <> [] ->
      phase (toggle o w) = Processing)
  /\ (phase w = Recording -> threads w = [] ->
      forall e, ext_stop_recording o (clock w) = Raised e ->
                phase (toggle o w) = Idle)
  /\ (forall i, phase (finish o i w) = phase w
                \/ (phase w = Processing /\ phase (finish o i w) = Idle))
  /\ phase (load_done o w) = phase w
  /\ (forall a, phase w = Idle -> phase (act o a w) <> Processing).
Proof.
  intro Hl. split; [intro l; apply phases_follow, Hl |].
  pose proof (toggle_phase_when_recording o w Hl) as Hrec.
  pose proof (toggle_phase_when_not_recording o w Hl) as Hnot.
  split; [| split; [| split; [| split; [| split; [| split;
    [| split; [| split; [| split; [| split; [| split]]]]]]]]]].
  - intros Hph Hq. pose proof (toggle_phase_step o w Hl) as H.
    rewrite Hph, Hq in H. discriminate.
  - intros Hph a Hs. rewrite (Hrec Hph), Hs. reflexivity.
  - intros Hph Hth Hs. rewrite (Hrec Hph), Hs, Hth. reflexivity.
  - intros Hph Hs. rewrite Hnot, Hs by congruence. reflexivity.
  - intros Hph Hs. rewrite Hnot, Hs by congruence. reflexivity.
  - intros Hph Hs. rewrite (Hnot Hph), Hs. reflexivity.
  - intros Hph e Hs. rewrite (Hnot Hph), Hs. reflexivity.
  - intros Hph Hth. rewrite (Hrec Hph).
    destruct (threads w) as [| b l]; [congruence |].
    destruct (ext_stop_recording o (clock w)) as [[s |] | e]; reflexivity.
  - intros Hph Hth e Hs. rewrite (Hrec Hph), Hs, Hth. reflexivity.
  - intro i. pose proof (finish_phase_step o i w) as H.
    destruct (phase w), (phase (finish o i w)); try discriminate H;
      auto.
  - pose proof (load_done_phase o w) as H.
    destruct (phase w), (phase (load_done o w)); try discriminate H;
      reflexivity.
  - intros a Hph Hq. pose proof (act_phase_step o a w Hl) as H.
    rewrite Hph, Hq in H. destruct a; discriminate.
Qed.

Lemma phase_paths_of_the_code_witness :
  model_loaded (self ready) = true /\
  follows [Toggle; Toggle; Finish 0]
          (phases all_well [Toggle; Toggle; Finish 0] ready) = true.
Proof.
  split; [reflexivity |].
  apply (phase_paths_of_the_code all_well ready eq_refl).
Defined.

(** ** The published status *)

(** C8, as stated, fails: while a session is being processed the title says
    Ready, and after a failed load it still says Loading. *)
Lemma status_misses_processing_and_failure :
  phase processing = Processing
  /\ expected_status processing = StProcessing
  /\ tray_icon (self processing) = Some "Parrator - Ready"
  /\ published_status processing = Some StIdleReady
  /\ readiness (load_done load_fails booted) = Failed
  /\ expected_status (load_done load_fails booted) = StIdleNotReady
  /\ published_status (load_done load_fails booted) = Some StIdleLoading.
Proof.
  vm_compute. repeat split.
Qed.

Lemma toggle_in_sync (o : Oracle) (w : World) :
  in_sync w -> in_sync (toggle o w).
Proof.
  unfold in_sync, toggle, title_of. open_world w. intros ->.
  oracle_cases; reflexivity.
Qed.

Lemma load_done_in_sync (o : Oracle) (w : World) :
  in_sync w -> in_sync (load_done o w).
Proof.
  unfold in_sync, load_done, title_of. open_world w. intros ->.
  oracle_cases; reflexivity.
Qed.

Lemma act_in_sync (o : Oracle) (a : Action) (w : World) :
  in_sync w -> in_sync (act o a w).
Proof.
  destruct a as [| i |]; simpl; intro H.
  - apply toggle_in_sync, H.
  - unfold in_sync. rewrite finish_self. exact H.
  - apply load_done_in_sync, H.
Qed.

Lemma acts_in_sync (o : Oracle) (l : list Action) :
  forall w, in_sync w -> in_sync (acts o l w).
Proof.
  induction l as [| a l IH]; intros w H; simpl.
  - exact H.
  - apply IH, act_in_sync, H.
Qed.

(** C8, amended.  With calls made one at a time (each toggle, thread
    completion and loader completion runs to its end before the next
    begins): once the icon shows the title of the two flags, it does so
    after every toggle, every thread completion and the loader's completion:
    the title is "Parrator - Recording..." when [is_recording] is set,
    otherwise "Parrator - Ready" when [model_loaded] is set, otherwise
    "Parrator - Loading...".  These three are the only statuses the code
    publishes: a session being processed shows as Ready, and a failed load
    keeps showing Loading. *)
Theorem title_follows_the_flags (o : Oracle) (w : World) (l : list Action) :
  in_sync w ->
  tray_icon (self (acts o l w)) = Some (title_of (self (acts o l w)))
  /\ published_status (acts o l w) = Some (flag_status (self (acts o l w)))
  /\ published_status (acts o l w) <> Some StProcessing
  /\ published_status (acts o l w) <> Some StIdleNotReady.
Proof.
  intro H. pose proof (acts_in_sync o l w H) as Hs.
  unfold in_sync in Hs. split; [exact Hs |].
  unfold published_status. rewrite Hs. unfold title_of, flag_status.
  destruct (is_recording (self (acts o l w)));
    [| destruct (model_loaded (self (acts o l w)))];
    cbn; repeat split; discriminate.
Qed.

Lemma title_follows_the_flags_witness :
  in_sync booted /\
  published_status (acts all_well [LoadDone; Toggle; Toggle] booted)
    = Some (flag_status (self (acts all_well [LoadDone; Toggle; Toggle] booted))).
Proof.
  split; [reflexivity |].
  apply (title_follows_the_flags all_well booted [LoadDone; Toggle; Toggle]).
  reflexivity.
Defined.

(** ** Two toggles at once *)

(** C2, as stated, fails: of two toggles during a recording, run one after
    the other, the second is not a no-op but starts a new recording; and when
    both read the flag before either clears it, both stop the recorder and
    both start a [process] thread. *)
Lemma second_toggle_is_not_a_noop :
  let serial :=
    interleave all_well one_after_the_other
      _toggle_recording _toggle_recording recording in
  let racy :=
    interleave all_well both_read_first
      _toggle_recording _toggle_recording recording in
  phase recording = Recording
  /\ both_finished serial = true
  /\ phase (snd serial) = Recording
  /\ trace (snd serial) =
       trace recording ++
       [EPrint "Recording stopped, processing..."; ETitle "Parrator - Ready";
        EStop; ESpawn [1; 2; 3];
        EPrint "Recording started..."; ETitle "Parrator - Recording...";
        EStart]
  /\ both_finished racy = true
  /\ threads (snd racy) = [[1; 2; 3]; [1; 2; 3]]
  /\ trace (snd racy) =
       trace recording ++
       [EPrint "Recording stopped, processing..."; ETitle "Parrator - Ready";
        EStop; ESpawn [1; 2; 3];
        EPrint "Recording stopped, processing..."; ETitle "Parrator - Ready";
        EStop; ESpawn [1; 2; 3]].
Proof.
  vm_compute. repeat split.
Qed.

(** *** Every schedule *)

Lemma requests_app (l l' : list Event) :
  requests (l ++ l') = requests l + requests l'.
Proof. unfold requests. rewrite filter_app, length_app. reflexivity. Qed.

Lemma stops_app (l l' : list Event) : stops (l ++ l') = stops l + stops l'.
Proof. unfold stops. rewrite filter_app, length_app. reflexivity. Qed.

Ltac count_events :=
  unfold requests, stops; rewrite ?filter_app, ?length_app; cbn.

Lemma exec_plain (o : Oracle) {X : Type} (op : Op X) (w : World) :
  plain op = true ->
  model_loaded (self (snd (exec_op o op w))) = model_loaded (self w)
  /\ requests (trace (snd (exec_op o op w))) = requests (trace w)
  /\ stops (trace (snd (exec_op o op w))) = stops (trace w).
Proof.
  destruct op as [| b | | b | | s | s | | a | | X c]; cbn; intro H;
    try discriminate; try (destruct c; try discriminate; cbn);
    count_events; repeat split; try reflexivity; lia.
Qed.

Lemma will_request_step (o : Oracle) (n : nat) (p : prog unit) (w : World) :
  will_request n p ->
  model_loaded (self w) = true ->
  exists n',
    will_request n' (fst (step1 o p w))
    /\ requests (trace (snd (step1 o p w))) + n' = requests (trace w) + n
    /\ model_loaded (self (snd (step1 o p w))) = true
    /\ stops (trace w) <= stops (trace (snd (step1 o p w))).
Proof.
  intros H Hl. destruct H as [a | e | k n H | k n H | k n H | X op k n Hop H].
  - exists 0. cbn. repeat split; try assumption; try constructor; lia.
  - exists 0. cbn. repeat split; try assumption; try constructor; lia.
  - exists n. cbn. rewrite Hl. repeat split; try assumption; lia.
  - exists n. cbn. count_events.
    repeat split; try apply H; try assumption; lia.
  - exists n. cbn. count_events.
    repeat split; try apply H; try assumption; lia.
  - exists n. destruct (exec_plain o op w Hop) as (Hm & Hr & Hs).
    simpl. destruct (exec_op o op w) as [x w']. simpl in *.
    rewrite Hm, Hr, Hs. repeat split; try apply H; try assumption; lia.
Qed.

Lemma must_stop_step (o : Oracle) (p : prog unit) (w : World) :
  must_stop p ->
  model_loaded (self w) = true ->
  must_stop (fst (step1 o p w))
  \/ stops (trace w) < stops (trace (snd (step1 o p w))).
Proof.
  intros H Hl. destruct H as [k | k H | X op k Hop H].
  - right. cbn. count_events. lia.
  - left. cbn. rewrite Hl. exact H.
  - left. simpl. destruct (exec_op o op w) as [x w']. apply H.
Qed.

Lemma awaits_step (o : Oracle) (p : prog unit) (w : World) :
  awaits p ->
  model_loaded (self w) = true ->
  is_recording (self w) = true ->
  snd (step1 o p w) = w
  /\ (awaits (fst (step1 o p w)) \/ must_stop (fst (step1 o p w))).
Proof.
  intros H Hl Hr. destruct H as [k H | k H]; cbn.
  - rewrite Hl. split; [reflexivity | left; exact H].
  - rewrite Hr. split; [reflexivity | right; exact H].
Qed.

Lemma must_stop_unfinished (p : prog unit) : must_stop p -> finished p = false.
Proof. destruct 1; reflexivity. Qed.

Lemma awaits_unfinished (p : prog unit) : awaits p -> finished p = false.
Proof. destruct 1; reflexivity. Qed.

Lemma will_request_finished (n : nat) (p : prog unit) :
  will_request n p -> finished p = true -> n = 0.
Proof. destruct 1; simpl; intro; try reflexivity; discriminate. Qed.

Lemma racing_step_left (o : Oracle) (r s0 : nat) (p1 p2 : prog unit) (w : World) :
  racing r s0 (p1, p2, w) ->
  racing r s0 (fst (step1 o p1 w), p2, snd (step1 o p1 w)).
Proof.
  intros (Hl & Hs0 & (n1 & n2 & H1 & H2 & Hr) & Hd).
  destruct (will_request_step o n1 p1 w H1 Hl) as (n' & H1' & Hr' & Hl' & Hs').
  split; [exact Hl' |]. split; [lia |]. split.
  - exists n', n2. repeat split; try assumption. lia.
  - destruct Hd as [Hd | [Hd | [Hd | (Hrec & Ha1 & Ha2)]]].
    + left. lia.
    + destruct (must_stop_step o p1 w Hd Hl) as [Hm | Hm].
      * right. left. exact Hm.
      * left. lia.
    + right. right. left. exact Hd.
    + destruct (awaits_step o p1 w Ha1 Hl Hrec) as (Hw & [Ha | Hm]).
      * right. right. right. rewrite Hw. repeat split; assumption.
      * right. left. exact Hm.
Qed.

Lemma racing_step_right (o : Oracle) (r s0 : nat) (p1 p2 : prog unit) (w : World) :
  racing r s0 (p1, p2, w) ->
  racing r s0 (p1, fst (step1 o p2 w), snd (step1 o p2 w)).
Proof.
  intros (Hl & Hs0 & (n1 & n2 & H1 & H2 & Hr) & Hd).
  destruct (will_request_step o n2 p2 w H2 Hl) as (n' & H2' & Hr' & Hl' & Hs').
  split; [exact Hl' |]. split; [lia |]. split.
  - exists n1, n'. repeat split; try assumption. lia.
  - destruct Hd as [Hd | [Hd | [Hd | (Hrec & Ha1 & Ha2)]]].
    + left. lia.
    + right. left. exact Hd.
    + destruct (must_stop_step o p2 w Hd Hl) as [Hm | Hm].
      * right. right. left. exact Hm.
      * left. lia.
    + destruct (awaits_step o p2 w Ha2 Hl Hrec) as (Hw & [Ha | Hm]).
      * right. right. right. rewrite Hw. repeat split; assumption.
      * right. right. left. exact Hm.
Qed.

Lemma interleave_racing (o : Oracle) (r s0 : nat) (s : list Tid) :
  forall p1 p2 w,
    racing r s0 (p1, p2, w) -> racing r s0 (interleave o s p1 p2 w).
Proof.
  induction s as [| [|] s IH]; intros p1 p2 w H; simpl.
  - exact H.
  - pose proof (racing_step_left o r s0 p1 p2 w H) as H'.
    destruct (step1 o p1 w) as [p1' w']. apply IH, H'.
  - pose proof (racing_step_right o r s0 p1 p2 w H) as H'.
    destruct (step1 o p2 w) as [p2' w']. apply IH, H'.
Qed.

Ltac future_step :=
  cbn;
  first
    [ apply wr_ret | apply wr_throw
    | apply wr_loaded
    | apply wr_start; intro
    | apply wr_stop; intro
    | apply wr_other; [reflexivity | intro]
    | apply ms_stop
    | apply ms_loaded
    | apply ms_other; [reflexivity | intro]
    | match goal with
      | |- context [if ?b then _ else _] =>
          match type of b with bool => is_var b; destruct b end
      | |- context [negb ?b] => is_var b; destruct b
      | |- context [match ?x with Returned _ => _ | Raised _ => _ end] =>
          is_var x; destruct x
      | |- context [match ?x with Some _ => _ | None => _ end] =>
          match type of x with option _ => is_var x; destruct x end
      end ].

Lemma toggle_will_request : will_request 1 _toggle_recording.
Proof.
  unfold _toggle_recording, _start_recording, _stop_recording,
    _update_tray_icon, _process_audio_async, print, perform, call, pass.
  repeat future_step.
Qed.

Lemma toggle_awaits : awaits _toggle_recording.
Proof.
  unfold _toggle_recording, _start_recording, _stop_recording,
    _update_tray_icon, _process_audio_async, print, perform, call, pass.
  cbn. apply aw_loaded. cbn. apply aw_flag. repeat future_step.
Qed.

(** Under every schedule that lets both calls finish, the recorder has been
    asked exactly twice, and at least once to stop. *)
Lemma every_schedule_two_requests (o : Oracle) (w : World) (s : list Tid) :
  model_loaded (self w) = true ->
  is_recording (self w) = true ->
  both_finished (interleave o s _toggle_recording _toggle_recording w) = true ->
  requests (trace (snd (interleave o s _toggle_recording _toggle_recording w)))
    = requests (trace w) + 2
  /\ stops (trace w)
     < stops (trace (snd (interleave o s _toggle_recording _toggle_recording w))).
Proof.
  intros Hl Hr Hf.
  assert (H0 : racing (requests (trace w) + 2) (stops (trace w))
                 (_toggle_recording, _toggle_recording, w)).
  { split; [exact Hl |]. split; [lia |]. split.
    - exists 1, 1. repeat split; try apply toggle_will_request. lia.
    - right. right. right. repeat split; try apply toggle_awaits. exact Hr. }
  pose proof (interleave_racing o _ _ s _ _ _ H0) as H.
  destruct (interleave o s _toggle_recording _toggle_recording w)
    as [[p1 p2] w'].
  unfold both_finished in Hf. simpl in Hf.
  apply andb_prop in Hf. destruct Hf as [Hf1 Hf2].
  destruct H as (_ & Hs0 & (n1 & n2 & H1 & H2 & Hq) & Hd). simpl.
  rewrite (will_request_finished n1 p1 H1 Hf1) in Hq.
  rewrite (will_request_finished n2 p2 H2 Hf2) in Hq.
  split; [lia |].
  destruct Hd as [Hd | [Hd | [Hd | (_ & Hd & _)]]].
  - exact Hd.
  - apply must_stop_unfinished in Hd. congruence.
  - apply must_stop_unfinished in Hd. congruence.
  - apply awaits_unfinished in Hd. congruence.
Qed.

(** C2, amended.  No lock is taken anywhere in the code, and nothing is
    queued.  For two toggles during a recording with the model loaded:
    under every schedule that lets both calls finish, the recorder is asked
    exactly twice (once by each call, so neither call is a no-op) and at
    least once to stop.  Run one after the other (which is just two calls in a row), the first
    clears the flag and stops the recorder, and the second, finding the flag
    cleared, requests [start_recording]: it is not a no-op.  When both read
    the flag before either clears it, both take the stop path: the recorder
    is asked to stop twice, no start is requested, and the flag ends
    cleared. *)
Theorem two_toggles_while_recording (o : Oracle) (w : World) :
  phase w = Recording ->
  model_loaded (self w) = true ->
  let serial :=
    interleave o one_after_the_other _toggle_recording _toggle_recording w in
  let racy :=
    interleave o both_read_first _toggle_recording _toggle_recording w in
  (forall s,
      both_finished (interleave o s _toggle_recording _toggle_recording w)
        = true ->
      requests
        (trace (snd (interleave o s _toggle_recording _toggle_recording w)))
        = requests (trace w) + 2
      /\ stops (trace w)
         < stops
             (trace (snd (interleave o s _toggle_recording _toggle_recording w))))
  /\ both_finished serial = true
  /\ snd serial = toggle o (toggle o w)
  /\ trace (snd serial) =
       trace w ++ [EPrint "Recording stopped, processing..."]
         ++ published (self w) "Parrator - Ready"
         ++ [EStop] ++ after_stop (ext_stop_recording o (clock w))
         ++ [EPrint "Recording started..."]
         ++ published (self w) "Parrator - Recording..."
         ++ [EStart]
         ++ after_start (self w) (ext_start_recording o (S (clock w)))
  /\ both_finished racy = true
  /\ is_recording (self (snd racy)) = false
  /\ trace (snd racy) =
       trace w ++ [EPrint "Recording stopped, processing..."]
         ++ published (self w) "Parrator - Ready"
         ++ [EStop] ++ after_stop (ext_stop_recording o (clock w))
         ++ [EPrint "Recording stopped, processing..."]
         ++ published (self w) "Parrator - Ready"
         ++ [EStop] ++ after_stop (ext_stop_recording o (S (clock w))).
Proof.
  intros Hph Hl. cbv zeta.
  assert (Hr : is_recording (self w) = true).
  { unfold phase in Hph. destruct (is_recording (self w)); [reflexivity |].
    destruct (threads w); discriminate. }
  split.
  { intros s Hf. apply every_schedule_two_requests; assumption. }
  clear Hr.
  unfold toggle, phase, both_finished, published, has_icon in *.
  open_world w. subst loaded. destruct rec; [| destruct th; discriminate].
  clear Hph.
  split; [| split; [| split; [| split; [| split]]]].
  - destruct icon as [t |]; cbn;
      destruct (ext_stop_recording o c) as [[a |] | e]; cbn;
      destruct (ext_start_recording o (S c)) as [[] | e']; reflexivity.
  - destruct icon as [t |]; cbn;
      destruct (ext_stop_recording o c) as [[a |] | e]; cbn;
      destruct (ext_start_recording o (S c)) as [[] | e']; reflexivity.
  - destruct icon as [t |]; cbn;
      destruct (ext_stop_recording o c) as [[a |] | e]; cbn;
      destruct (ext_start_recording o (S c)) as [[] | e']; cbn;
      rewrite <- ?app_assoc; reflexivity.
  - destruct icon as [t |]; cbn;
      destruct (ext_stop_recording o c) as [[a |] | e]; cbn;
      destruct (ext_stop_recording o (S c)) as [[a' |] | e']; reflexivity.
  - destruct icon as [t |]; cbn;
      destruct (ext_stop_recording o c) as [[a |] | e]; cbn;
      destruct (ext_stop_recording o (S c)) as [[a' |] | e']; reflexivity.
  - destruct icon as [t |]; cbn;
      destruct (ext_stop_recording o c) as [[a |] | e]; cbn;
      destruct (ext_stop_recording o (S c)) as [[a' |] | e']; cbn;
      rewrite <- ?app_assoc; reflexivity.
Qed.

Lemma two_toggles_while_recording_witness :
  phase recording = Recording /\
  model_loaded (self recording) = true /\
  snd (interleave all_well one_after_the_other
         _toggle_recording _toggle_recording recording)
    = toggle all_well (toggle all_well recording).
Proof.
  do 2 (split; [reflexivity |]).
  apply (two_toggles_while_recording all_well recording eq_refl eq_refl).
Defined.

(** * Further properties of the code *)

(** Evaluation that leaves the environment's answers and the history's
    appends in place. *)
Ltac crank :=
  lazy -[app String.append
         ext_start_recording ext_stop_recording ext_save_temp_audio
         ext_transcribe_file ext_os_remove ext_pyperclip_copy
         ext_config_auto_paste ext_pyautogui_hotkey ext_load_model
         ext_import_pyautogui];
  cbn [ext_start_recording ext_stop_recording ext_save_temp_audio
       ext_transcribe_file ext_os_remove ext_pyperclip_copy
       ext_config_auto_paste ext_pyautogui_hotkey ext_load_model
         ext_import_pyautogui].

(** The same, leaving the counting vocabulary in place as well. *)
Ltac crank_counts :=
  lazy -[app String.append length Nat.add
         count flag forallb toggle_event task_event
         is_stop is_start is_save is_copy is_spawn
         ext_start_recording ext_stop_recording ext_save_temp_audio
         ext_transcribe_file ext_os_remove ext_pyperclip_copy
         ext_config_auto_paste ext_pyautogui_hotkey ext_load_model
         ext_import_pyautogui];
  cbn [ext_start_recording ext_stop_recording ext_save_temp_audio
       ext_transcribe_file ext_os_remove ext_pyperclip_copy
       ext_config_auto_paste ext_pyautogui_hotkey ext_load_model
         ext_import_pyautogui].

(** Evaluation with case analysis on every answer the control flow
    depends on. *)
Ltac cases_with eval_goal :=
  repeat (eval_goal;
          match goal with
          | |- context [match ?x with Returned _ => _ | Raised _ => _ end] =>
              match type of x with outcome _ => destruct x end
          | |- context [match ?x with Exc _ => _ | KeyboardInterrupt => _ end] =>
              is_var x; destruct x
          | |- context [match ?x with [] => _ | _ :: _ => _ end] =>
              match type of x with list _ => is_var x; destruct x end
          | |- context [match ?x ++ _ with [] => _ | _ :: _ => _ end] =>
              is_var x; destruct x
          | |- context [if ?b then _ else _] =>
              match type of b with bool => is_var b; destruct b end
          | |- context [match ?x with Some _ => _ | None => _ end] =>
              match type of x with option _ => is_var x; destruct x end
          | |- context [match ?x with EmptyString => _ | String _ _ => _ end] =>
              is_var x; destruct x
          | |- context [match ?x with pair _ _ => _ end] =>
              match type of x with prod _ _ => is_var x; destruct x end
          | |- context [match ?x with tt => _ end] =>
              match type of x with unit => is_var x; destruct x end
          end);
  eval_goal.

Ltac crank_cases := cases_with ltac:(crank).
Ltac count_cases := cases_with ltac:(crank_counts).

(** ** Delivery, step by step *)

(** X1. Once the clipboard write has gone through, what
    [_handle_transcription_result] does next is decided by the [auto_paste]
    setting and by the import of [pyautogui]: setting off, nothing more;
    setting on, the import, and when it raises an [Exception] (the package
    is missing) only the print "Auto-paste failed: ...", with no pause and
    no keystroke; when it succeeds, a pause, then the paste keystroke, whose
    failure is only printed as "Auto-paste failed: ..."; and when reading
    the setting itself raises an [Exception], the print "Clipboard error:
    ..." although the text is on the clipboard.  In all these cases the
    method returns; only a raise that is not an [Exception] leaves it, and
    then nothing more is printed. *)
Theorem delivery_after_the_copy (o : Oracle) (w : World) (text : string) :
  ext_pyperclip_copy o (clock w) text = Returned tt ->
  fst (run o (_handle_transcription_result text) w) =
    paste_result (ext_config_auto_paste o (1 + clock w))
                 (ext_import_pyautogui o (2 + clock w))
                 (ext_pyautogui_hotkey o (3 + clock w))
  /\ trace (snd (run o (_handle_transcription_result text) w)) =
       trace w ++
       [EPrint ("Transcribed: " ++ text); ECopy text;
        EPrint "Copied to clipboard"; EAutoPasteCfg]
       ++ paste_events (ext_config_auto_paste o (1 + clock w))
                       (ext_import_pyautogui o (2 + clock w))
                       (ext_pyautogui_hotkey o (3 + clock w))
  /\ (forall m,
        fst (run o (_handle_transcription_result text) w) <> Raised (Exc m))
  /\ (forall msg,
        ext_config_auto_paste o (1 + clock w) = Returned true ->
        ext_import_pyautogui o (2 + clock w) = Raised (Exc msg) ->
        fst (run o (_handle_transcription_result text) w) = Returned tt
        /\ trace (snd (run o (_handle_transcription_result text) w)) =
             trace w ++
             [EPrint ("Transcribed: " ++ text); ECopy text;
              EPrint "Copied to clipboard"; EAutoPasteCfg; EImportPyautogui;
              EPrint ("Auto-paste failed: " ++ msg)]).
Proof.
  intro Hc. open_world w. crank. rewrite Hc.
  destruct (ext_config_auto_paste o (S c)) as [[] | [e |]];
    [destruct (ext_import_pyautogui o (S (S c))) as [[] | [e1 |]];
     [destruct (ext_pyautogui_hotkey o (S (S (S c)))) as [[] | [e2 |]] | |]
    | | |];
    crank; rewrite <- ?app_assoc;
    (split; [reflexivity |]); (split; [reflexivity |]);
    (split; [intro m; discriminate |]);
    intros msg Hcfg Himp; try discriminate Hcfg; try discriminate Himp.
  injection Himp as <-. split; reflexivity.
Qed.

Lemma delivery_after_the_copy_witness :
  ext_pyperclip_copy no_pyautogui (clock ready) "hello world" = Returned tt
  /\ fst (run no_pyautogui (_handle_transcription_result "hello world") ready)
     = Returned tt
  /\ trace (snd (run no_pyautogui (_handle_transcription_result "hello world")
                   ready)) =
       trace ready ++
       [EPrint "Transcribed: hello world"; ECopy "hello world";
        EPrint "Copied to clipboard"; EAutoPasteCfg; EImportPyautogui;
        EPrint "Auto-paste failed: No module named 'pyautogui'"].
Proof.
  split; [reflexivity |].
  destruct (delivery_after_the_copy no_pyautogui ready "hello world" eq_refl)
    as (H1 & H2 & _).
  split; [exact H1 | exact H2].
Defined.

(** ** The background task, branch by branch *)

(** X2. A task whose audio was saved and transcribed to a non-empty text
    removes the file, then copies to the clipboard exactly the text the
    transcriber returned, once, and goes on to the paste as
    [_handle_transcription_result] does: nothing more when the setting is
    off, the import of [pyautogui], the pause and the keystroke when it is
    on, the pause and the keystroke being skipped when the import fails.
    The outcome of [os.remove] plays no part, and no [Exception] leaves the
    task. *)
Theorem transcribed_text_is_copied (o : Oracle) (w : World) (a : audio)
        (p text : string) :
  ext_save_temp_audio o (clock w) a = Returned (Some p) ->
  truthy (Some p) = true ->
  ext_transcribe_file o (1 + clock w) p = Returned (true, Some text) ->
  truthy (Some text) = true ->
  ext_pyperclip_copy o (3 + clock w) text = Returned tt ->
  fst (run o (process a) w) =
    paste_result (ext_config_auto_paste o (4 + clock w))
                 (ext_import_pyautogui o (5 + clock w))
                 (ext_pyautogui_hotkey o (6 + clock w))
  /\ trace (snd (run o (process a) w)) =
       trace w ++
       [ESave a; ETranscribe p; ERemove p;
        EPrint ("Transcribed: " ++ text); ECopy text;
        EPrint "Copied to clipboard"; EAutoPasteCfg]
       ++ paste_events (ext_config_auto_paste o (4 + clock w))
                       (ext_import_pyautogui o (5 + clock w))
                       (ext_pyautogui_hotkey o (6 + clock w))
  /\ (forall m, fst (run o (process a) w) <> Raised (Exc m))
  /\ count is_copy
       ([ESave a; ETranscribe p; ERemove p;
         EPrint ("Transcribed: " ++ text); ECopy text;
         EPrint "Copied to clipboard"; EAutoPasteCfg]
        ++ paste_events (ext_config_auto_paste o (4 + clock w))
                        (ext_import_pyautogui o (5 + clock w))
                        (ext_pyautogui_hotkey o (6 + clock w))) = 1.
Proof.
  intros Hsave Hp Htr Ht Hc.
  split; [| split; [| split; [intro m; apply process_raises_no_exception |]]].
  - open_world w. destruct p as [| ch p']; [discriminate |].
    destruct text as [| ch' text']; [discriminate |].
    crank. rewrite Hsave. crank. rewrite Htr. crank.
    destruct (ext_os_remove o (S (S c)) (String ch p')) as [[] | e0]; crank;
      rewrite Hc; crank;
      (destruct (ext_config_auto_paste o (S (S (S (S c))))) as [[] | [e |]];
       [destruct (ext_import_pyautogui o (S (S (S (S (S c))))))
          as [[] | [e1 |]];
        [destruct (ext_pyautogui_hotkey o (S (S (S (S (S (S c)))))))
           as [[] | [e2 |]] | |]
       | | |]);
      crank; reflexivity.
  - open_world w. destruct p as [| ch p']; [discriminate |].
    destruct text as [| ch' text']; [discriminate |].
    crank. rewrite Hsave. crank. rewrite Htr. crank.
    destruct (ext_os_remove o (S (S c)) (String ch p')) as [[] | e0]; crank;
      rewrite Hc; crank;
      (destruct (ext_config_auto_paste o (S (S (S (S c))))) as [[] | [e |]];
       [destruct (ext_import_pyautogui o (S (S (S (S (S c))))))
          as [[] | [e1 |]];
        [destruct (ext_pyautogui_hotkey o (S (S (S (S (S (S c)))))))
           as [[] | [e2 |]] | |]
       | | |]);
      crank; rewrite <- ?app_assoc; reflexivity.
  - destruct (ext_config_auto_paste o (4 + clock w)) as [[] | [e |]];
      [destruct (ext_import_pyautogui o (5 + clock w)) as [[] | [e1 |]];
       [destruct (ext_pyautogui_hotkey o (6 + clock w)) as [[] | [e2 |]] | |]
      | | |];
      reflexivity.
Qed.

Lemma transcribed_text_is_copied_witness :
  fst (run all_well (process [1; 2; 3]) ready) = Returned tt
  /\ trace (snd (run all_well (process [1; 2; 3]) ready)) =
    trace ready ++
    [ESave [1; 2; 3]; ETranscribe "/tmp/rec.wav"; ERemove "/tmp/rec.wav";
     EPrint "Transcribed: hello world"; ECopy "hello world";
     EPrint "Copied to clipboard"; EAutoPasteCfg;
     EImportPyautogui; ESleep; EPaste; EPrint "Auto-pasted"].
Proof.
  destruct (transcribed_text_is_copied all_well ready [1; 2; 3]
              "/tmp/rec.wav" "hello world"
              eq_refl eq_refl eq_refl eq_refl eq_refl) as (H1 & H2 & _).
  split; [exact H1 | exact H2].
Defined.

(** X3. A task whose audio could not be saved ([save_temp_audio] returns
    None or an empty path) prints "Failed to save audio" and ends there: it
    makes no other collaborator call, so nothing is transcribed, removed or
    copied. *)
Theorem unsaved_audio_ends_the_task (o : Oracle) (w : World) (a : audio)
        (path : option string) :
  ext_save_temp_audio o (clock w) a = Returned path ->
  truthy path = false ->
  run o (process a) w =
    (Returned tt, log (EPrint "Failed to save audio") (log (ESave a) (tick w))).
Proof.
  intros Hsave Hp. open_world w. unfold process, truthy in *.
  crank. rewrite Hsave. destruct path as [[| ch s] |]; try discriminate;
    reflexivity.
Qed.

Lemma unsaved_audio_ends_the_task_witness :
  run disk_full (process [1; 2; 3]) ready =
    (Returned tt,
     log (EPrint "Failed to save audio") (log (ESave [1; 2; 3]) (tick ready))).
Proof.
  apply (unsaved_audio_ends_the_task disk_full ready [1; 2; 3] None
           eq_refl eq_refl).
Defined.

(** X4. A task whose transcription comes back unsuccessful, or successful
    with no text (None or the empty string), still removes the file, prints
    "Transcription failed" and leaves the clipboard alone: three collaborator
    calls in all. *)
Theorem failed_transcription_is_not_delivered (o : Oracle) (w : World)
        (a : audio) (p : string) (success : bool) (text : option string) :
  ext_save_temp_audio o (clock w) a = Returned (Some p) ->
  truthy (Some p) = true ->
  ext_transcribe_file o (1 + clock w) p = Returned (success, text) ->
  success && truthy text = false ->
  fst (run o (process a) w) = Returned tt
  /\ trace (snd (run o (process a) w)) =
       trace w ++ [ESave a; ETranscribe p; ERemove p;
                   EPrint "Transcription failed"]
  /\ clock (snd (run o (process a) w)) = 3 + clock w.
Proof.
  intros Hsave Hp Htr Hno.
  open_world w. destruct p as [| ch p']; [discriminate |].
  assert (Hcase : success = false \/ text = None \/ text = Some "").
  { destruct success; [| left; reflexivity].
    destruct text as [[| ch' s] |]; try discriminate; auto. }
  crank. rewrite Hsave. crank. rewrite Htr.
  destruct (ext_os_remove o (S (S c)) (String ch p')) as [[] | e0];
    destruct Hcase as [-> | [-> | ->]]; try destruct success;
    crank; rewrite <- ?app_assoc; repeat split; reflexivity.
Qed.

Lemma failed_transcription_is_not_delivered_witness :
  trace (snd (run nothing_heard (process [1; 2; 3]) ready)) =
    trace ready ++ [ESave [1; 2; 3]; ETranscribe "/tmp/rec.wav";
                    ERemove "/tmp/rec.wav"; EPrint "Transcription failed"].
Proof.
  apply (failed_transcription_is_not_delivered nothing_heard ready [1; 2; 3]
           "/tmp/rec.wav" true (Some "") eq_refl eq_refl eq_refl eq_refl).
Defined.

(** X5. What [os.remove] does, return or raise, changes nothing of a task:
    the task run against an environment and against the same environment
    with any other [os.remove] ends in the same world with the same
    result. *)
Theorem removal_outcome_is_invisible (o : Oracle)
        (f : nat -> string -> outcome unit) (a : audio) (w : World) :
  run (with_os_remove o f) (process a) w = run o (process a) w.
Proof.
  open_world w. unfold with_os_remove. crank_cases; reflexivity.
Qed.

(** ** Loading the model *)

(** X6. When [load_model] returns True, the loader thread sets
    [model_loaded], publishes the title of the flags if the icon exists
    (Recording if a recording is in progress, Ready otherwise), prints
    "Model loaded successfully", and touches nothing else. *)
Theorem loaded_model_is_published (o : Oracle) (w : World) :
  loader w = true ->
  ext_load_model o (clock w) = Returned true ->
  self (load_done o w) =
    mkApp (is_recording (self w)) true
      (if has_icon (self w)
       then Some (title_of (mkApp (is_recording (self w)) true None))
       else None)
  /\ threads (load_done o w) = threads w
  /\ trace (load_done o w) =
       trace w ++ [ELoadModel]
         ++ published (self w)
              (title_of (mkApp (is_recording (self w)) true None))
         ++ [EPrint "Model loaded successfully"].
Proof.
  intros Hld Hl. unfold load_done. rewrite Hld. open_world w. subst ld.
  crank. rewrite Hl.
  destruct icon as [t |]; destruct rec; crank; rewrite <- ?app_assoc;
    repeat split.
Qed.

Lemma loaded_model_is_published_witness :
  loader booted = true /\
  ext_load_model all_well (clock booted) = Returned true /\
  self (load_done all_well booted) = mkApp false true (Some "Parrator - Ready").
Proof.
  do 2 (split; [reflexivity |]).
  apply (loaded_model_is_published all_well booted eq_refl eq_refl).
Defined.

Lemma finish_loader (o : Oracle) (i : nat) (w : World) :
  loader (finish o i w) = loader w.
Proof.
  unfold finish. destruct (nth_error (threads w) i) as [a |]; [| reflexivity].
  match goal with
  | |- loader (snd (run o _ ?v)) = _ =>
      destruct (run_quiet o (process a) (quiet_process a) v) as (_ & _ & H)
  end.
  exact H.
Qed.

Lemma unloaded_act (o : Oracle) (a : Action) (w : World) :
  model_loaded (self w) = false -> loader w = false ->
  self (act o a w) = self w /\ loader (act o a w) = false.
Proof.
  intros Hm Hl. destruct a as [| i |]; simpl.
  - unfold toggle. open_world w. subst loaded ld. split; reflexivity.
  - rewrite finish_self, finish_loader. split; [reflexivity | exact Hl].
  - unfold load_done. rewrite Hl. split; [reflexivity | exact Hl].
Qed.

(** X7. A load that fails (returns False, or raises) is final: the loader
    thread has run, nothing loads the model again, and from then on no
    sequence of toggles and thread completions changes the object at all:
    the flag stays cleared, the title stays what it was, and every toggle is
    refused. *)
Theorem failed_load_is_final (o : Oracle) (w : World) (l : list Action) :
  loader w = true ->
  model_loaded (self w) = false ->
  ext_load_model o (clock w) <> Returned true ->
  self (acts o l (load_done o w)) = self w
  /\ model_loaded (self (acts o l (load_done o w))) = false.
Proof.
  intros Hld Hm Hfail.
  assert (H0 : self (load_done o w) = self w /\ loader (load_done o w) = false).
  { unfold load_done. rewrite Hld. open_world w. subst ld loaded. crank.
    destruct (ext_load_model o c) as [[] | e]; [congruence | |];
      split; reflexivity. }
  assert (Hall : forall l v, self v = self w -> loader v = false ->
                             self (acts o l v) = self w).
  { clear l. induction l as [| a l IH]; intros v Hs Hl; simpl; [exact Hs |].
    assert (Hmv : model_loaded (self v) = false) by (rewrite Hs; exact Hm).
    destruct (unloaded_act o a v Hmv Hl) as (Hs' & Hl').
    apply IH; [rewrite Hs'; exact Hs | exact Hl']. }
  destruct H0 as (Hs0 & Hl0).
  rewrite (Hall l _ Hs0 Hl0). split; [reflexivity | exact Hm].
Qed.

Lemma failed_load_is_final_witness :
  loader booted = true /\
  model_loaded (self booted) = false /\
  ext_load_model load_fails (clock booted) <> Returned true /\
  self (acts load_fails [Toggle; Toggle; Toggle]
          (load_done load_fails booted)) = self booted.
Proof.
  do 2 (split; [reflexivity |]). split; [discriminate |].
  apply (failed_load_is_final load_fails booted [Toggle; Toggle; Toggle]
           eq_refl eq_refl).
  discriminate.
Defined.

(** X8. Nothing clears [model_loaded]: once the model is loaded it stays
    loaded under every sequence of toggles, thread completions and loader
    completions, in every environment. *)
Theorem model_stays_loaded (o : Oracle) (l : list Action) (w : World) :
  model_loaded (self w) = true ->
  model_loaded (self (acts o l w)) = true.
Proof.
  revert w. induction l as [| a l IH]; intros w H; simpl.
  - exact H.
  - apply IH, act_keeps_loaded, H.
Qed.

Lemma model_stays_loaded_witness :
  model_loaded (self (acts no_microphone [Toggle; LoadDone; Toggle] ready))
    = true.
Proof.
  apply (model_stays_loaded no_microphone [Toggle; LoadDone; Toggle] ready).
  reflexivity.
Defined.

(** ** When the recorder raises *)

(** X9. [_start_recording] sets the flag before it asks the recorder and has
    no handler around the request: when [start_recording] raises, the
    exception leaves [_toggle_recording], and the flag stays set with the
    Recording title although nothing is being recorded.  The next toggle
    therefore takes the stop path and asks the recorder to stop. *)
Theorem start_exception_leaves_flag_set (o : Oracle) (w : World) (e : exn) :
  phase w = Idle ->
  model_loaded (self w) = true ->
  ext_start_recording o (clock w) = Raised e ->
  fst (run o _toggle_recording w) = Raised e
  /\ is_recording (self (toggle o w)) = true
  /\ phase (toggle o w) = Recording
  /\ trace (toggle o w) =
       trace w ++ [EPrint "Recording started..."]
         ++ published (self w) "Parrator - Recording..." ++ [EStart]
  /\ trace (toggle o (toggle o w)) =
       trace (toggle o w) ++ [EPrint "Recording stopped, processing..."]
         ++ published (self w) "Parrator - Ready"
         ++ [EStop] ++ after_stop (ext_stop_recording o (S (clock w))).
Proof.
  intros Hph Hl Hs. unfold toggle, phase, published, has_icon, after_stop in *.
  open_world w. subst loaded.
  destruct rec; [discriminate |]. destruct th; [| discriminate].
  destruct icon as [t |]; crank; rewrite Hs; crank;
    destruct (ext_stop_recording o (S c)) as [[a |] | e'];
    crank; rewrite <- ?app_assoc; repeat split.
Qed.

Lemma start_exception_leaves_flag_set_witness :
  phase ready = Idle /\
  model_loaded (self ready) = true /\
  ext_start_recording recorder_crashes (clock ready)
    = Raised (Exc "no input device")
  /\ fst (run recorder_crashes _toggle_recording ready)
     = Raised (Exc "no input device")
  /\ is_recording (self (toggle recorder_crashes ready)) = true.
Proof.
  do 3 (split; [reflexivity |]).
  pose proof (start_exception_leaves_flag_set recorder_crashes ready
                (Exc "no input device") eq_refl eq_refl eq_refl) as H.
  split; apply H.
Defined.

(** ** What each thread does, and how often *)

Lemma count_app (f : Event -> bool) (l l' : list Event) :
  count f (l ++ l') = count f l + count f l'.
Proof. unfold count. rewrite filter_app, length_app. reflexivity. Qed.

Ltac give_rest :=
  eexists; split; [rewrite <- ?app_assoc; reflexivity |];
  rewrite ?length_app; cbn; repeat split; lia.

(** One toggle: what it adds to the history and to the running threads. *)
Lemma toggle_effect (o : Oracle) (w : World) :
  exists rest,
    trace (toggle o w) = trace w ++ rest
    /\ forallb toggle_event rest = true
    /\ count is_stop rest + flag (is_recording (self (toggle o w)))
       <= count is_start rest + flag (is_recording (self w))
    /\ length (threads (toggle o w)) = length (threads w) + count is_spawn rest
    /\ count is_save rest = 0
    /\ count is_copy rest = 0.
Proof.
  unfold toggle. open_world w. count_cases; give_rest.
Qed.

(** One [process] thread: what it adds to the history. *)
Lemma process_effect (o : Oracle) (a : audio) (w : World) :
  exists rest,
    trace (snd (run o (process a) w)) = trace w ++ rest
    /\ forallb task_event rest = true
    /\ count is_save rest = 1
    /\ count is_copy rest <= 1
    /\ count is_spawn rest = 0
    /\ count is_stop rest = 0
    /\ count is_start rest = 0.
Proof.
  open_world w. count_cases; give_rest.
Qed.

(** The loader thread: what it adds to the history. *)
Lemma load_done_effect (o : Oracle) (w : World) :
  exists rest,
    trace (load_done o w) = trace w ++ rest
    /\ is_recording (self (load_done o w)) = is_recording (self w)
    /\ threads (load_done o w) = threads w
    /\ count is_save rest = 0
    /\ count is_copy rest = 0
    /\ count is_spawn rest = 0
    /\ count is_stop rest = 0
    /\ count is_start rest = 0.
Proof.
  unfold load_done. open_world w. count_cases;
    solve [ give_rest
          | exists []; rewrite app_nil_r; repeat split ].
Qed.

Lemma remove_nth_length {A : Type} (l : list A) :
  forall i a, nth_error l i = Some a ->
              S (length (remove_nth i l)) = length l.
Proof.
  induction l as [| x l IH]; intros i a H.
  - destruct i; discriminate.
  - destruct i as [| i]; simpl.
    + reflexivity.
    + f_equal. apply (IH i a). exact H.
Qed.

(** A finishing thread: either there was no such thread and nothing
    happens, or the history grows by what one [process] does and one thread
    fewer is running. *)
Lemma finish_effect (o : Oracle) (i : nat) (w : World) :
  finish o i w = w
  \/ exists rest,
       trace (finish o i w) = trace w ++ rest
       /\ S (length (threads (finish o i w))) = length (threads w)
       /\ forallb task_event rest = true
       /\ count is_save rest = 1
       /\ count is_copy rest <= 1
       /\ count is_spawn rest = 0
       /\ count is_stop rest = 0
       /\ count is_start rest = 0.
Proof.
  destruct (nth_error (threads w) i) as [a |] eqn:E.
  - right. pose proof (finish_threads o i w) as Ht.
    unfold finish in *. rewrite E in *.
    match goal with
    | |- context [run o _ ?v] =>
        destruct (process_effect o a v) as (rest & Hr & Hrest)
    end.
    exists rest. split; [exact Hr |]. split; [| exact Hrest].
    rewrite Ht. apply (remove_nth_length _ i a E).
  - left. unfold finish. rewrite E. reflexivity.
Qed.

Lemma act_balanced (o : Oracle) (a : Action) (w : World) :
  balanced w -> balanced (act o a w).
Proof.
  unfold balanced. intro H. destruct a as [| i |]; simpl.
  - destruct (toggle_effect o w) as (rest & Hr & _ & Hb & _).
    rewrite Hr, !count_app. lia.
  - destruct (finish_effect o i w)
      as [-> | (rest & Hr & _ & _ & _ & _ & _ & Hs & Hst)]; [exact H |].
    rewrite Hr, !count_app, finish_self. lia.
  - destruct (load_done_effect o w)
      as (rest & Hr & Hrec & _ & _ & _ & _ & Hs & Hst).
    rewrite Hr, !count_app, Hrec. lia.
Qed.

(** X10. Called one at a time, the code never asks the recorder to stop
    more often than it asked it to start, and while the flag is set there is
    a start request that no stop has answered yet: this holds after every
    sequence of toggles, thread completions and loader completions, in every
    environment, once it holds at the beginning (as it does at start-up). *)
Theorem stops_never_outnumber_starts (o : Oracle) (l : list Action) (w : World) :
  balanced w ->
  count is_stop (trace (acts o l w))
    + flag (is_recording (self (acts o l w)))
  <= count is_start (trace (acts o l w)).
Proof.
  revert w. induction l as [| a l IH]; intros w H; simpl.
  - exact H.
  - apply IH, act_balanced, H.
Qed.

Lemma stops_never_outnumber_starts_witness :
  balanced booted /\
  count is_stop (trace (acts all_well [LoadDone; Toggle; Toggle; Toggle] booted))
    + flag (is_recording
              (self (acts all_well [LoadDone; Toggle; Toggle; Toggle] booted)))
  <= count is_start
       (trace (acts all_well [LoadDone; Toggle; Toggle; Toggle] booted)).
Proof.
  assert (H : balanced booted) by (unfold balanced; cbn; lia).
  split; [exact H |].
  apply (stops_never_outnumber_starts all_well
           [LoadDone; Toggle; Toggle; Toggle] booted H).
Defined.

Lemma act_accounted (o : Oracle) (a : Action) (w : World) :
  accounted w -> accounted (act o a w).
Proof.
  unfold accounted. intros (H1 & H2). destruct a as [| i |]; simpl.
  - destruct (toggle_effect o w) as (rest & Hr & _ & _ & Ht & Hsv & Hc).
    rewrite Hr, !count_app. split; lia.
  - destruct (finish_effect o i w)
      as [-> | (rest & Hr & Ht & _ & Hsv & Hc & Hsp & _)];
      [split; assumption |].
    rewrite Hr, !count_app. split; lia.
  - destruct (load_done_effect o w)
      as (rest & Hr & _ & Ht & Hsv & Hc & Hsp & _).
    rewrite Hr, !count_app, Ht. split; lia.
Qed.

(** X11. Every [process] thread that has run saved its audio exactly once,
    and nothing reaches the clipboard that was not saved first: after every
    sequence of toggles and completions, the threads still running plus the
    saves made equal the threads started, and the clipboard writes are at
    most the saves.  So a stopped recording is delivered at most once. *)
Theorem every_task_saves_once (o : Oracle) (l : list Action) (w : World) :
  accounted w ->
  length (threads (acts o l w)) + count is_save (trace (acts o l w))
    = count is_spawn (trace (acts o l w))
  /\ count is_copy (trace (acts o l w)) <= count is_save (trace (acts o l w)).
Proof.
  revert w. induction l as [| a l IH]; intros w H; simpl.
  - exact H.
  - apply IH, act_accounted, H.
Qed.

Lemma every_task_saves_once_witness :
  accounted booted /\
  count is_copy
    (trace (acts all_well [LoadDone; Toggle; Toggle; Finish 0] booted))
  <= count is_save
       (trace (acts all_well [LoadDone; Toggle; Toggle; Finish 0] booted)).
Proof.
  assert (H : accounted booted) by (unfold accounted; cbn; lia).
  split; [exact H |].
  apply (every_task_saves_once all_well
           [LoadDone; Toggle; Toggle; Finish 0] booted H).
Defined.

(** X12. [_toggle_recording] keeps the slow work off the calling thread:
    whatever the state and the environment, all it is ever seen doing is
    printing, setting the title, asking the recorder to start or stop, and
    starting a thread; it never saves, transcribes, removes a file, or
    touches the clipboard or the keyboard. *)
Theorem toggle_leaves_the_work_to_the_thread (o : Oracle) (w : World) :
  exists rest,
    trace (toggle o w) = trace w ++ rest
    /\ forallb toggle_event rest = true
    /\ count is_save rest = 0
    /\ count is_copy rest = 0.
Proof.
  destruct (toggle_effect o w) as (rest & Hr & Hev & _ & _ & Hsv & Hc).
  exists rest. repeat split; assumption.
Qed.

(** X13. A [process] thread works on its own: whatever the environment,
    no [Exception] leaves it (it returns whenever the collaborators raise
    nothing but [Exception]s; a raise of another kind, which [except
    Exception] does not catch, ends the thread), it leaves every field of the
    object and the set of running threads as they are, and all it is ever
    seen doing is printing and the save, transcribe, remove, clipboard,
    setting, import and paste calls; it never asks the recorder to start or
    stop and never sets the title. *)
Theorem task_leaves_the_object_alone (o : Oracle) (a : audio) (w : World) :
  (forall m, fst (run o (process a) w) <> Raised (Exc m))
  /\ (only_exceptions o -> fst (run o (process a) w) = Returned tt)
  /\ self (snd (run o (process a) w)) = self w
  /\ threads (snd (run o (process a) w)) = threads w
  /\ exists rest,
       trace (snd (run o (process a) w)) = trace w ++ rest
       /\ forallb task_event rest = true
       /\ count is_stop rest = 0
       /\ count is_start rest = 0.
Proof.
  split; [intro m; apply process_raises_no_exception |].
  split; [apply process_returns |].
  destruct (run_quiet o (process a) (quiet_process a) w) as (Hs & Ht & _).
  split; [exact Hs |]. split; [exact Ht |].
  destruct (process_effect o a w) as (rest & Hr & Hev & _ & _ & _ & Hst & Hsa).
  exists rest. repeat split; assumption.
Qed.

Lemma task_leaves_the_object_alone_witness :
  only_exceptions all_well
  /\ fst (run all_well (process [1; 2; 3]) processing) = Returned tt.
Proof.
  assert (H : only_exceptions all_well).
  { intros X c n. destruct c; discriminate. }
  split; [exact H |].
  exact (proj1 (proj2 (task_leaves_the_object_alone all_well [1; 2; 3]
                         processing)) H).
Defined.

(** ** A whole dictation *)

(** X14. Starting from rest with the model loaded and the title in step
    with the flags, a toggle whose start request succeeds followed by a
    second toggle brings every field of the object back to what it was,
    whatever the recorder answers to the stop request; when it answers with
    audio, exactly one thread is started for that audio, and once that
    thread has run the application is at rest again with nothing running,
    the audio having been saved. *)
Theorem dictation_returns_to_rest (o : Oracle) (w : World) :
  phase w = Idle ->
  model_loaded (self w) = true ->
  in_sync w ->
  ext_start_recording o (clock w) = Returned true ->
  phase (toggle o w) = Recording
  /\ self (toggle o (toggle o w)) = self w
  /\ (forall a,
        ext_stop_recording o (S (clock w)) = Returned (Some a) ->
        threads (toggle o (toggle o w)) = [a]
        /\ phase (toggle o (toggle o w)) = Processing
        /\ phase (acts o [Toggle; Toggle; Finish 0] w) = Idle
        /\ self (acts o [Toggle; Toggle; Finish 0] w) = self w
        /\ threads (acts o [Toggle; Toggle; Finish 0] w) = []
        /\ In (ESave a) (trace (acts o [Toggle; Toggle; Finish 0] w))).
Proof.
  intros Hph Hl Hsync Hs.
  assert (Hrec : is_recording (self w) = false /\ threads w = []).
  { unfold phase in Hph. destruct (is_recording (self w)); [discriminate |].
    destruct (threads w); [split; reflexivity | discriminate]. }
  destruct Hrec as (Hrec & Hth).
  assert (H2 : self (toggle o (toggle o w)) = self w).
  { unfold toggle, in_sync, title_of in *. open_world w. subst.
    crank. rewrite Hs. crank.
    destruct (ext_stop_recording o (S c)) as [[a |] | e]; reflexivity. }
  split; [| split; [exact H2 |]].
  - unfold toggle, phase, in_sync, title_of in *. open_world w. subst.
    crank. rewrite Hs. reflexivity.
  - intros a Ha.
    assert (H3 : threads (toggle o (toggle o w)) = [a]).
    { unfold toggle, in_sync, title_of in *. open_world w. subst.
      crank. rewrite Hs. crank. rewrite Ha. reflexivity. }
    assert (H4 : In (ESave a) (trace (finish o 0 (toggle o (toggle o w))))).
    { unfold finish. rewrite H3. simpl nth_error. cbv iota.
      match goal with
      | |- In _ (trace (snd (run o (process a) ?v))) =>
          destruct (process_saves_first o a v) as [rest Hrest]; rewrite Hrest
      end.
      apply in_or_app. right. left. reflexivity. }
    simpl acts. unfold phase.
    rewrite finish_self, finish_threads, H2, H3, Hrec. simpl.
    repeat split. exact H4.
Qed.

Lemma dictation_returns_to_rest_witness :
  phase ready = Idle /\
  model_loaded (self ready) = true /\
  in_sync ready /\
  ext_start_recording all_well (clock ready) = Returned true /\
  self (toggle all_well (toggle all_well ready)) = self ready.
Proof.
  do 4 (split; [reflexivity |]).
  exact (proj1 (proj2 (dictation_returns_to_rest all_well ready
                         eq_refl eq_refl eq_refl eq_refl))).
Defined.

(** ** The loader thread against a toggle *)

(** X26. The title follows the flags only as long as calls do not overlap.
    [_update_tray_icon] reads the flags and then writes the title, with no
    lock: when the loader thread has read [is_recording] as False and a
    toggle then starts a recording before the loader writes, the loader
    writes "Parrator - Ready" over "Parrator - Recording...", and the icon
    says Ready while a recording is in progress.  The same two calls made
    one after the other leave the title Recording. *)
Theorem loader_overtakes_a_toggle :
  let r := interleave all_well loader_overtaken load_model _toggle_recording
             booted in
  in_sync booted
  /\ both_finished r = true
  /\ is_recording (self (snd r)) = true
  /\ model_loaded (self (snd r)) = true
  /\ tray_icon (self (snd r)) = Some "Parrator - Ready"
  /\ ~ in_sync (snd r)
  /\ trace (snd r) =
       [ELoadModel; EPrint "Recording started...";
        ETitle "Parrator - Recording..."; EStart;
        ETitle "Parrator - Ready"; EPrint "Model loaded successfully"]
  /\ tray_icon (self (acts all_well [LoadDone; Toggle] booted))
     = Some "Parrator - Recording...".
Proof.
  cbv zeta. unfold in_sync. vm_compute. repeat split. discriminate.
Qed.

(** * Set-up, menu callbacks and shutdown *)

Ltac open_desk d :=
  destruct d as [[[rec loaded icon] th ld c tr] hk ar n h]; cbn in *.

Ltac scrank :=
  lazy -[app String.append String.eqb length Nat.add tally
         asked_hotkey_stop asked_recorder_cleanup
         asked_startup_change
         reply sys_platform sys_frozen sys_meipass module_dir path_join
         ext_start_recording ext_stop_recording ext_save_temp_audio
         ext_transcribe_file ext_os_remove ext_pyperclip_copy
         ext_config_auto_paste ext_pyautogui_hotkey ext_load_model
         ext_import_pyautogui].

Lemma srun_sbind (o : Oracle) (e : Surroundings) {A B : Type}
      (p : sprog A) (f : A -> sprog B) :
  forall d,
    srun o e (sbind p f) d =
    match srun o e p d with
    | (Gave a, d') => srun o e (f a) d'
    | (Threw ex, d') => (Threw ex, d')
    end.
Proof.
  induction p as [a | ex | X op k IH]; intro d; simpl.
  - reflexivity.
  - reflexivity.
  - destruct (exec_sop o e op d) as [x d']. apply IH.
Qed.

(** The history of the second layer records exactly what the first layer
    logs. *)
Lemma exec_op_logs (o : Oracle) {X : Type} (op : Op X) (w : World) :
  trace (snd (exec_op o op w)) = trace w ++ event_of_op op.
Proof.
  destruct op; cbn; try reflexivity; symmetry; apply app_nil_r.
Qed.

(** A method of the orchestration called through the second layer does to
    the orchestration's world exactly what it does in the first, and its
    events enter the history in the same order. *)
Lemma srun_lift (o : Oracle) (e : Surroundings) {A : Type} (p : prog A) :
  forall d,
    core (snd (srun o e (lift p) d)) = snd (run o p (core d))
    /\ fst (srun o e (lift p) d) =
         match fst (run o p (core d)) with
         | Returned a => Gave a
         | Raised ex => Threw ex
         end
    /\ hotkey_manager (snd (srun o e (lift p) d)) = hotkey_manager d
    /\ ticks (snd (srun o e (lift p) d)) = ticks d
    /\ exists rest,
         trace (snd (run o p (core d))) = trace (core d) ++ rest
         /\ history (snd (srun o e (lift p) d)) = history d ++ map Orch rest.
Proof.
  induction p as [a | msg | X op k IH]; intro d; simpl.
  - repeat split. exists []. split; symmetry; apply app_nil_r.
  - repeat split. exists []. split; symmetry; apply app_nil_r.
  - pose proof (exec_op_logs o op (core d)) as Hlog.
    destruct (exec_op o op (core d)) as [x w'] eqn:E. simpl in Hlog.
    destruct (IH x (note (map Orch (event_of_op op)) (set_core w' d)))
      as (H1 & H2 & H3 & H4 & rest & H5 & H6).
    simpl in *. repeat split; try assumption.
    exists (event_of_op op ++ rest). split.
    + rewrite H5, Hlog. symmetry. apply app_assoc.
    + rewrite H6, map_app. symmetry. apply app_assoc.
Qed.

(** [start] is its set-up followed by its [try] statement. *)
Lemma start_in_two_parts (o : Oracle) (e : Surroundings) (d : Desk) :
  srun o e (start e) d =
  match srun o e (set_up e) d with
  | (Gave _, d') => srun o e tray_loop d'
  | (Threw ex, d') => (Threw ex, d')
  end.
Proof.
  unfold start, set_up. fold tray_loop.
  repeat (rewrite !srun_sbind;
          match goal with
          | |- context [match srun o e ?p ?v with _ => _ end] =>
              destruct (srun o e p v) as [[? | ?] ?]
          end; try reflexivity).
Qed.

Ltac desk_cases :=
  repeat (scrank;
          match goal with
          | |- context [match ?x with Gave _ => _ | Threw _ => _ end] =>
              match type of x with answer _ => destruct x eqn:? end
          | |- context [match ?x with Exc _ => _ | KeyboardInterrupt => _ end] =>
              match type of x with pyexn => is_var x; destruct x end
          | |- context [if (?a =? ?b)%string then _ else _] =>
              destruct (a =? b)%string eqn:?
          | |- context [match ?x with Returned _ => _ | Raised _ => _ end] =>
              match type of x with outcome _ => destruct x eqn:? end
          | |- context [if ?b then _ else _] =>
              match type of b with bool => is_var b; destruct b end
          | |- context [match ?x with Some _ => _ | None => _ end] =>
              match type of x with option _ => is_var x; destruct x end
          | |- context [match ?x with tt => _ end] =>
              match type of x with unit => is_var x; destruct x end
          end);
  scrank.

(** ** The Settings entry *)

(** X15. [_show_settings] cannot raise an [Exception]: on every platform,
    whatever the configuration object and the opener do, the callback
    returns (only a [KeyboardInterrupt] would pass), and it changes no field
    of the object. *)
Theorem show_settings_never_raises (o : Oracle) (e : Surroundings) (d : Desk) :
  (forall (X : Type) (c : SExt X) (n : nat),
      reply e X c n <> Threw KeyboardInterrupt) ->
  fst (srun o e (_show_settings e) d) = Gave tt
  /\ self (core (snd (srun o e (_show_settings e) d))) = self (core d)
  /\ hotkey_manager (snd (srun o e (_show_settings e) d)) = hotkey_manager d.
Proof.
  intro Hk. open_desk d. unfold _show_settings.
  desk_cases; try (repeat split; reflexivity);
    exfalso; eapply Hk; eassumption.
Qed.

Lemma show_settings_never_raises_witness :
  fst (srun all_well no_opener (_show_settings no_opener) set_up_desk) = Gave tt.
Proof.
  apply (show_settings_never_raises all_well no_opener set_up_desk).
  intros X c n. destruct c; discriminate.
Defined.

(** X16. [_show_settings] hands the configuration path to exactly one
    opener, chosen by [sys.platform]: [os.startfile] on "win32", [open] on
    "darwin", and [xdg-open] on every other platform; when the opener raises
    the failure is printed and nothing else is tried. *)
Theorem settings_opener_by_platform (o : Oracle) (e : Surroundings) (d : Desk)
        (p : string) :
  reply e _ ConfigPath (ticks d) = Gave p ->
  exists report,
    history (snd (srun o e (_show_settings e) d)) =
      history d ++
      [Asked ConfigPath;
       if (sys_platform e =? "win32")%string then Asked (OsStartfile p)
       else if (sys_platform e =? "darwin")%string
            then Asked (SubprocessRun ["open"; p])
            else Asked (SubprocessRun ["xdg-open"; p])]
      ++ report
    /\ (report = [] \/ exists s, report = [Orch (EPrint s)]).
Proof.
  intro Hp. open_desk d. unfold _show_settings.
  scrank. rewrite Hp.
  desk_cases; rewrite <- ?app_assoc;
    eexists; (split; [reflexivity |]);
    solve [left; reflexivity | right; eexists; reflexivity].
Qed.

Lemma settings_opener_by_platform_witness :
  exists report,
    history (snd (srun all_well calm (_show_settings calm) set_up_desk)) =
      history set_up_desk ++
      [Asked ConfigPath;
       Asked (SubprocessRun ["xdg-open"; "/home/user/.parrator/config.json"])]
      ++ report
    /\ (report = [] \/ exists s, report = [Orch (EPrint s)]).
Proof.
  apply (settings_opener_by_platform all_well calm set_up_desk
           "/home/user/.parrator/config.json" eq_refl).
Defined.

(** ** The Start-with-System entry *)

Lemma tally_app (f : SEvent -> bool) (l l' : list SEvent) :
  tally f (l ++ l') = tally f l + tally f l'.
Proof. unfold tally. rewrite filter_app, length_app. reflexivity. Qed.

Ltac give_history :=
  eexists; split; [rewrite <- ?app_assoc; reflexivity |];
  unfold tally; cbn; repeat split; try lia.

(** X17. [_toggle_startup] asks the start-up manager for its state exactly
    once and then for exactly one change, the opposite of the state it was
    told: disable when enabled, enable when not; it never asks for both.
    It has no handler: an exception of the manager leaves the callback. *)
Theorem startup_toggle_flips_once (o : Oracle) (e : Surroundings) (d : Desk)
        (enabled : bool) :
  reply e _ StartupIsEnabled (ticks d) = Gave enabled ->
  (exists report,
     history (snd (srun o e _toggle_startup d)) =
       history d ++
       [Asked StartupIsEnabled;
        Asked (if enabled then StartupDisable else StartupEnable)]
       ++ report
     /\ tally asked_startup_change report = 0)
  /\ (forall ex,
        reply e _ (if enabled then StartupDisable else StartupEnable)
          (S (ticks d)) = Threw ex ->
        fst (srun o e _toggle_startup d) = Threw ex)
  /\ (forall ok,
        reply e _ (if enabled then StartupDisable else StartupEnable)
          (S (ticks d)) = Gave ok ->
        fst (srun o e _toggle_startup d) = Gave tt).
Proof.
  intro He. open_desk d. unfold _toggle_startup.
  split; [| split].
  - scrank. rewrite He. destruct enabled; desk_cases; give_history.
  - intros ex Hx. scrank. rewrite He.
    destruct enabled; scrank; rewrite Hx; reflexivity.
  - intros ok Hx. scrank. rewrite He.
    destruct enabled; scrank; rewrite Hx; destruct ok; reflexivity.
Qed.

Lemma startup_toggle_flips_once_witness :
  exists report,
    history (snd (srun all_well calm _toggle_startup set_up_desk)) =
      history set_up_desk ++
      [Asked StartupIsEnabled; Asked StartupEnable] ++ report
    /\ tally asked_startup_change report = 0.
Proof.
  apply (startup_toggle_flips_once all_well calm set_up_desk false eq_refl).
Defined.

(** ** Shutdown *)

(** X18. [cleanup] stops the hotkey manager before it cleans the recorder
    and has no handler in between: when [hotkey_manager.stop()] raises, the
    exception leaves [cleanup] and [audio_recorder.cleanup()] is never
    called.  When it returns, the recorder is cleaned next.  Either way the
    fields stay as they were: [cleanup] keeps no record of having run. *)
Theorem cleanup_stops_hotkeys_first (o : Oracle) (e : Surroundings) (d : Desk)
        (combo : string) :
  hotkey_manager d = Some combo ->
  audio_recorder d = true ->
  hotkey_manager (snd (srun o e cleanup d)) = Some combo
  /\ core (snd (srun o e cleanup d)) = core d
  /\ (forall ex,
        reply e _ HotkeyStop (ticks d) = Threw ex ->
        fst (srun o e cleanup d) = Threw ex
        /\ history (snd (srun o e cleanup d)) = history d ++ [Asked HotkeyStop])
  /\ (reply e _ HotkeyStop (ticks d) = Gave tt ->
      history (snd (srun o e cleanup d)) =
        history d ++ [Asked HotkeyStop; Asked RecorderCleanup]).
Proof.
  intros Hm Hr. open_desk d. subst hk ar. unfold cleanup.
  split; [| split; [| split]].
  - desk_cases; reflexivity.
  - desk_cases; reflexivity.
  - intros ex Hx. scrank. rewrite Hx. split; reflexivity.
  - intros Hx. scrank. rewrite Hx.
    desk_cases; rewrite <- ?app_assoc; reflexivity.
Qed.

Lemma cleanup_stops_hotkeys_first_witness :
  hotkey_manager set_up_desk = Some "ctrl+shift+;" /\
  audio_recorder set_up_desk = true /\
  fst (srun all_well hotkey_raises cleanup set_up_desk)
    = Threw (Exc "keyboard hook failed") /\
  history (snd (srun all_well hotkey_raises cleanup set_up_desk))
    = history set_up_desk ++ [Asked HotkeyStop].
Proof.
  do 2 (split; [reflexivity |]).
  destruct (cleanup_stops_hotkeys_first all_well hotkey_raises set_up_desk
              "ctrl+shift+;" eq_refl eq_refl) as (_ & _ & H & _).
  exact (H (Exc "keyboard hook failed") eq_refl).
Defined.

(** X19. A hotkey that could not be registered is only reported: when
    [hotkey_manager.start()] returns False, [_setup_hotkeys] prints "Could
    not register hotkey: ..." and returns with the manager stored, so a
    later [cleanup] still asks that manager to stop. *)
Theorem unregistered_hotkey_is_kept (o : Oracle) (e : Surroundings) (d : Desk)
        (combo : string) :
  reply e _ (ConfigGet "hotkey" (Some "ctrl+shift+;")) (ticks d) = Gave combo ->
  reply e _ HotkeyStart (S (ticks d)) = Gave false ->
  fst (srun o e _setup_hotkeys d) = Gave tt
  /\ hotkey_manager (snd (srun o e _setup_hotkeys d)) = Some combo
  /\ history (snd (srun o e _setup_hotkeys d)) =
       history d ++
       [Asked (ConfigGet "hotkey" (Some "ctrl+shift+;"));
        HotkeyBuilt combo OnToggle; Asked HotkeyStart;
        Orch (EPrint ("Could not register hotkey: " ++ combo))]
  /\ exists rest,
       history (snd (srun o e (sbind _setup_hotkeys (fun _ => cleanup)) d)) =
         history (snd (srun o e _setup_hotkeys d)) ++ Asked HotkeyStop :: rest.
Proof.
  intros Hc Hs. open_desk d. unfold _setup_hotkeys, cleanup.
  scrank. rewrite Hc. scrank. rewrite Hs. scrank.
  rewrite <- !app_assoc. repeat split.
  desk_cases; eexists; rewrite <- ?app_assoc; cbn [app]; reflexivity.
Qed.

Lemma unregistered_hotkey_is_kept_witness :
  hotkey_manager (snd (srun all_well hotkey_taken _setup_hotkeys constructed))
    = Some "ctrl+shift+;".
Proof.
  apply (unregistered_hotkey_is_kept all_well hotkey_taken constructed
           "ctrl+shift+;" eq_refl eq_refl).
Defined.

(** X20. [_quit_application] cleans up before it stops the tray loop, with
    no handler: when the clean-up raises (the hotkey manager cannot be
    stopped), the exception leaves the callback and [tray_icon.stop()] is
    never called. *)
Theorem failing_cleanup_blocks_quit (o : Oracle) (e : Surroundings) (d : Desk)
        (combo : string) (ex : pyexn) :
  hotkey_manager d = Some combo ->
  reply e _ HotkeyStop (ticks d) = Threw ex ->
  fst (srun o e _quit_application d) = Threw ex
  /\ history (snd (srun o e _quit_application d)) =
       history d ++ [Orch (EPrint "Quitting..."); Asked HotkeyStop].
Proof.
  intros Hm Hx. open_desk d. subst hk. unfold _quit_application, cleanup.
  scrank. rewrite Hx. scrank. rewrite <- !app_assoc.
  split; reflexivity.
Qed.

Lemma failing_cleanup_blocks_quit_witness :
  hotkey_manager set_up_desk = Some "ctrl+shift+;" /\
  fst (srun all_well hotkey_raises _quit_application set_up_desk)
    = Threw (Exc "keyboard hook failed").
Proof.
  split; [reflexivity |].
  apply (failing_cleanup_blocks_quit all_well hotkey_raises set_up_desk
           "ctrl+shift+;" (Exc "keyboard hook failed") eq_refl eq_refl).
Defined.

(** X21. Quitting from the menu cleans up twice.  [_quit_application]
    calls [cleanup] and then stops the tray loop; the loop having returned,
    the [finally] clause of [start] calls [cleanup] again, and since
    [cleanup] does not clear [hotkey_manager], the manager is asked to stop a
    second time and the recorder is cleaned a second time. *)
Theorem quitting_cleans_up_twice (o : Oracle) (e : Surroundings) (d : Desk)
        (combo : string) :
  hotkey_manager d = Some combo ->
  audio_recorder d = true ->
  has_icon (self (core d)) = true ->
  (forall n, reply e _ HotkeyStop n = Gave tt) ->
  (forall n, reply e _ RecorderCleanup n = Gave tt) ->
  reply e _ TrayStop (2 + ticks d) = Gave tt ->
  fst (srun o e (sbind _quit_application (fun _ => cleanup)) d) = Gave tt
  /\ history (snd (srun o e (sbind _quit_application (fun _ => cleanup)) d)) =
       history d ++
       [Orch (EPrint "Quitting...");
        Asked HotkeyStop; Asked RecorderCleanup; Asked TrayStop;
        Asked HotkeyStop; Asked RecorderCleanup].
Proof.
  intros Hm Hr Hi Hs Hc Ht. unfold has_icon in Hi. open_desk d. subst hk ar.
  destruct icon as [t |]; [| discriminate].
  unfold _quit_application, cleanup, on_icon.
  scrank. rewrite !Hs. scrank. rewrite !Hc. scrank. rewrite Ht. scrank.
  rewrite !Hs. scrank. rewrite !Hc. scrank.
  rewrite <- !app_assoc. split; reflexivity.
Qed.

Lemma quitting_cleans_up_twice_witness :
  history (snd (srun all_well calm
                  (sbind _quit_application (fun _ => cleanup)) set_up_desk)) =
    history set_up_desk ++
    [Orch (EPrint "Quitting...");
     Asked HotkeyStop; Asked RecorderCleanup; Asked TrayStop;
     Asked HotkeyStop; Asked RecorderCleanup].
Proof.
  apply (quitting_cleans_up_twice all_well calm set_up_desk "ctrl+shift+;"
           eq_refl eq_refl eq_refl (fun _ => eq_refl) (fun _ => eq_refl)
           eq_refl).
Defined.

(** ** Start-up *)

(** What the set-up part of [start] leaves behind, however it ends: the
    loader thread is started, and nothing was cleaned up. *)
Lemma set_up_effect (o : Oracle) (e : Surroundings) (d : Desk) :
  exists rest,
    history (snd (srun o e (set_up e) d)) = history d ++ rest
    /\ tally asked_hotkey_stop rest = 0
    /\ tally asked_recorder_cleanup rest = 0
    /\ loader (core (snd (srun o e (set_up e) d))) = true
    /\ audio_recorder (snd (srun o e (set_up e) d)) = audio_recorder d
    /\ (fst (srun o e (set_up e) d) = Gave tt ->
        has_icon (self (core (snd (srun o e (set_up e) d)))) = true
        /\ exists combo,
             hotkey_manager (snd (srun o e (set_up e) d)) = Some combo).
Proof.
  open_desk d. unfold set_up, _setup_tray, _setup_hotkeys.
  desk_cases; give_history;
    solve [ discriminate
          | eexists; reflexivity
          | intros _; split; [reflexivity | eexists; reflexivity] ].
Qed.

(** X22. Once [start] is through its set-up, the last thing it does is
    clean up, whatever ends the tray loop: when [tray_icon.run()] returns,
    and when it raises [KeyboardInterrupt] (printed as "Application
    interrupted"), [start] returns after the clean-up; any other exception is
    raised again after the clean-up. *)
Theorem start_cleans_up_after_the_loop (o : Oracle) (e : Surroundings) (d : Desk) :
  fst (srun o e (set_up e) d) = Gave tt ->
  audio_recorder d = true ->
  (forall n, reply e _ HotkeyStop n = Gave tt) ->
  (forall n, reply e _ RecorderCleanup n = Gave tt) ->
  history (snd (srun o e (start e) d)) =
    history (snd (srun o e (set_up e) d)) ++ [Asked TrayRun]
      ++ match reply e _ TrayRun (ticks (snd (srun o e (set_up e) d))) with
         | Threw KeyboardInterrupt => [Orch (EPrint "Application interrupted")]
         | _ => []
         end
      ++ [Asked HotkeyStop; Asked RecorderCleanup]
  /\ fst (srun o e (start e) d) =
       match reply e _ TrayRun (ticks (snd (srun o e (set_up e) d))) with
       | Threw (Exc msg) => Threw (Exc msg)
       | _ => Gave tt
       end.
Proof.
  intros Hok Har Hs Hc.
  destruct (set_up_effect o e d) as (rest & _ & _ & _ & _ & Har' & Hres).
  destruct (Hres Hok) as (Hicon & combo & Hm). clear Hres.
  rewrite start_in_two_parts.
  destruct (srun o e (set_up e) d) as [[[] | ex] d1]; [| discriminate].
  simpl in *. rewrite Har in Har'. clear Hok Har rest d.
  unfold has_icon in Hicon. open_desk d1. subst hk ar.
  destruct icon as [t |]; [| discriminate].
  unfold tray_loop, cleanup, on_icon.
  scrank.
  destruct (reply e unit TrayRun n) as [[] | [msg |]]; scrank;
    rewrite Hs; scrank; rewrite Hc; scrank;
    rewrite <- ?app_assoc; split; reflexivity.
Qed.

Lemma start_cleans_up_after_the_loop_witness :
  fst (srun all_well interrupted (set_up interrupted) constructed) = Gave tt /\
  fst (srun all_well interrupted (start interrupted) constructed) = Gave tt.
Proof.
  split; [reflexivity |].
  exact (proj2 (start_cleans_up_after_the_loop all_well interrupted constructed
                  eq_refl eq_refl (fun _ => eq_refl) (fun _ => eq_refl))).
Defined.

(** X23. The set-up of [start] is outside its [try]: when anything in it
    raises (the fallback image, the hotkey library, the configuration),
    [start] raises the same exception at once, in the same state.  The
    loader thread has been started by then, and [cleanup] is not called:
    neither the hotkey manager nor the recorder is released. *)
Theorem failed_set_up_skips_cleanup (o : Oracle) (e : Surroundings) (d : Desk)
        (ex : pyexn) :
  fst (srun o e (set_up e) d) = Threw ex ->
  srun o e (start e) d = srun o e (set_up e) d
  /\ loader (core (snd (srun o e (start e) d))) = true
  /\ exists rest,
       history (snd (srun o e (start e) d)) = history d ++ rest
       /\ tally asked_hotkey_stop rest = 0
       /\ tally asked_recorder_cleanup rest = 0.
Proof.
  intro Hx.
  assert (Heq : srun o e (start e) d = srun o e (set_up e) d).
  { rewrite start_in_two_parts.
    destruct (srun o e (set_up e) d) as [[[] | ex'] d1];
      [discriminate | reflexivity]. }
  rewrite Heq. split; [reflexivity |].
  destruct (set_up_effect o e d) as (rest & Hr & H1 & H2 & Hl & _).
  split; [exact Hl |]. exists rest. repeat split; assumption.
Qed.

Lemma failed_set_up_skips_cleanup_witness :
  fst (srun all_well hotkey_raises (set_up hotkey_raises) constructed)
    = Threw (Exc "keyboard hook failed")
  /\ fst (srun all_well hotkey_raises (start hotkey_raises) constructed)
     = Threw (Exc "keyboard hook failed").
Proof.
  split; [reflexivity |].
  rewrite (proj1 (failed_set_up_skips_cleanup all_well hotkey_raises
                    constructed (Exc "keyboard hook failed") eq_refl)).
  reflexivity.
Defined.

(** X24. A missing or unreadable icon file never keeps the tray icon from
    being built: when [Image.open] raises an [Exception], [_setup_tray]
    prints "Could not load icon: ...", makes the blue square instead, and
    builds the icon with it; with the file or with the square, the icon
    starts with the title "Parrator - Loading..." and the same four menu
    entries. *)
Theorem icon_is_built_without_its_file (o : Oracle) (e : Surroundings) (d : Desk)
        (msg : string) :
  reply e _ (ImageOpen (_get_icon_path e)) (ticks d) = Threw (Exc msg) ->
  reply e _ ImageNew (S (ticks d)) = Gave tt ->
  fst (srun o e (_setup_tray e) d) = Gave tt
  /\ tray_icon (self (core (snd (srun o e (_setup_tray e) d))))
     = Some "Parrator - Loading..."
  /\ history (snd (srun o e (_setup_tray e) d)) =
       history d ++
       [Asked (ImageOpen (_get_icon_path e));
        Orch (EPrint ("Could not load icon: " ++ msg));
        Asked ImageNew;
        IconBuilt BlueSquare "Parrator - Loading..." menu_items].
Proof.
  intros Ho Hn. open_desk d. unfold _setup_tray, _get_icon_path in *.
  scrank. rewrite Ho. scrank. rewrite Hn. scrank.
  rewrite <- !app_assoc. repeat split.
Qed.

Lemma icon_is_built_without_its_file_witness :
  tray_icon (self (core (snd (srun all_well icon_missing
                                (_setup_tray icon_missing) constructed))))
    = Some "Parrator - Loading...".
Proof.
  apply (icon_is_built_without_its_file all_well icon_missing constructed
           "No such file" eq_refl eq_refl).
Defined.

Lemma setup_tray_with_its_file (o : Oracle) (e : Surroundings) (d : Desk) :
  reply e _ (ImageOpen (_get_icon_path e)) (ticks d) = Gave tt ->
  fst (srun o e (_setup_tray e) d) = Gave tt
  /\ core (snd (srun o e (_setup_tray e) d)) =
       set_self (mkApp (is_recording (self (core d)))
                   (model_loaded (self (core d)))
                   (Some "Parrator - Loading...")) (core d)
  /\ ticks (snd (srun o e (_setup_tray e) d)) = S (ticks d).
Proof.
  intro Ho. open_desk d. unfold _setup_tray, _get_icon_path in *.
  scrank. rewrite Ho. repeat split.
Qed.

Lemma loader_from_here (o : Oracle) (e : Surroundings) (d : Desk) :
  is_recording (self (core d)) = false ->
  ext_load_model o (clock (core d)) = Returned true ->
  fst (srun o e (lift load_model) d) = Gave tt
  /\ self (core (snd (srun o e (lift load_model) d))) =
       mkApp false true
         (if has_icon (self (core d)) then Some "Parrator - Ready" else None)
  /\ ticks (snd (srun o e (lift load_model) d)) = ticks d.
Proof.
  intros Hr Hl. open_desk d. subst rec.
  scrank. rewrite Hl. destruct icon; repeat split.
Qed.

(** X25. The order of set-up and model load matters for the title.
    [start] starts the loader thread before it builds the icon.  When the
    model finishes loading before [_setup_tray] has run, [load_model] finds
    no icon to update, and the icon is then built saying "Parrator -
    Loading..." although the model is loaded; the title stays wrong until
    the next toggle.  When the icon is built first, the load sets the title
    to "Parrator - Ready". *)
Theorem early_load_leaves_a_stale_title (o : Oracle) (e : Surroundings) (d : Desk) :
  tray_icon (self (core d)) = None ->
  is_recording (self (core d)) = false ->
  ext_load_model o (clock (core d)) = Returned true ->
  reply e _ (ImageOpen (_get_icon_path e)) (ticks d) = Gave tt ->
  let early := snd (srun o e (sbind (lift load_model) (fun _ => _setup_tray e)) d) in
  let late := snd (srun o e (sbind (_setup_tray e) (fun _ => lift load_model)) d) in
  model_loaded (self (core early)) = true
  /\ tray_icon (self (core early)) = Some "Parrator - Loading..."
  /\ ~ in_sync (core early)
  /\ model_loaded (self (core late)) = true
  /\ tray_icon (self (core late)) = Some "Parrator - Ready"
  /\ in_sync (core late).
Proof.
  intros Hi Hr Hl Ho. cbv zeta. unfold in_sync, title_of.
  rewrite !srun_sbind.
  destruct (loader_from_here o e d Hr Hl) as (L1 & L2 & L3).
  destruct (srun o e (lift load_model) d) as [[[] | ex] d1] eqn:E1;
    [| discriminate].
  simpl in L2, L3. rewrite <- L3 in Ho.
  destruct (setup_tray_with_its_file o e d1 Ho) as (S1 & S2 & _).
  destruct (srun o e (_setup_tray e) d1) as [[[] | ex] d2]; [| discriminate].
  simpl in S2.
  destruct (setup_tray_with_its_file o e d) as (T1 & T2 & T3).
  { rewrite L3 in Ho. exact Ho. }
  destruct (srun o e (_setup_tray e) d) as [[[] | ex] d3]; [| discriminate].
  simpl in T2, T3.
  destruct (loader_from_here o e d3) as (M1 & M2 & _).
  { rewrite T2. exact Hr. }
  { rewrite T2. exact Hl. }
  destruct (srun o e (lift load_model) d3) as [[[] | ex] d4]; [| discriminate].
  simpl in M2. simpl.
  rewrite S2, L2, M2, T2. cbn. repeat split; discriminate.
Qed.

Lemma early_load_leaves_a_stale_title_witness :
  tray_icon (self (core (snd (srun all_well calm
                                (sbind (lift load_model)
                                       (fun _ => _setup_tray calm))
                                constructed))))
    = Some "Parrator - Loading...".
Proof.
  exact (proj1 (proj2 (early_load_leaves_a_stale_title all_well calm constructed
                         eq_refl eq_refl eq_refl eq_refl))).
Defined.
